(** * medusa-plugin-aws-storage: the AWS storage file service

    A shallow embedding of [src/services/aws-storage.ts] (the service the
    plugin exports) and of the key/URL codec of [src/services/s3.ts] (the
    variant that also has [getKeyFromUrl]).

    JavaScript values are modelled as follows.
    - A string is a [string]; a field or argument that may be [undefined]
      or [null] is an [option]; a template literal [`${x}`] prints
      ["undefined"] for an absent [x] ([tmpl]).
    - Truthiness of a string-or-undefined value is [truthy]: present and
      not the empty string.
    - The service object is a record of its fields; the methods run in a
      state monad over it in which an exception keeps the state reached so
      far, as a JavaScript [throw] does.
    - The S3 client, the CloudFront client, the two URL signers and the
      clock are an environment of oracles; every request made to them and
      every console line is appended to a trace kept in the state.
    - The built-ins [RegExp], [encodeURI] and [Date.prototype.toISOString]
      are parameters of the development.

    The constructor and the two stream methods ([getUploadStreamDescriptor],
    [getDownloadStream]) pass their arguments through to the clients and are
    not embedded. *)

From Stdlib Require Import String Ascii List Bool ZArith.
Import ListNotations.
Local Open Scope string_scope.

(** ** JavaScript strings *)

Module Js.

(** [`${x}`] for a value that may be [undefined]. *)
Definition tmpl (x : option string) : string :=
  match x with
  | Some s => s
  | None => "undefined"
  end.

(** Truthiness of a string: every string but the empty one. *)
Definition nonempty (s : string) : bool :=
  match s with
  | EmptyString => false
  | String _ _ => true
  end.

(** Truthiness of a string that may be [undefined]. *)
Definition truthy (x : option string) : bool :=
  match x with
  | Some s => nonempty s
  | None => false
  end.

(** [a === b] on two values that are strings or [undefined]. *)
Definition seq (a b : option string) : bool :=
  match a, b with
  | Some x, Some y => String.eqb x y
  | None, None => true
  | _, _ => false
  end.

(** The rest of [s] after the prefix [p], when [s] starts with [p]. *)
Fixpoint strip_prefix (p s : string) : option string :=
  match p with
  | EmptyString => Some s
  | String a p' =>
      match s with
      | EmptyString => None
      | String b s' => if Ascii.eqb a b then strip_prefix p' s' else None
      end
  end.

(** [s.replace(pat, '')] for a string pattern: the first occurrence of
    [pat] in [s] is removed. *)
Fixpoint replace_first (pat s : string) : string :=
  match strip_prefix pat s with
  | Some rest => rest
  | None =>
      match s with
      | EmptyString => EmptyString
      | String c s' => String c (replace_first pat s')
      end
  end.

(** [s.endsWith(suffix)]. *)
Fixpoint endsWith (s suffix : string) : bool :=
  String.eqb s suffix ||
  match s with
  | EmptyString => false
  | String _ s' => endsWith s' suffix
  end.

(** [s.replace(/^\//, '')]: one leading slash is removed. *)
Definition strip_leading_slash (s : string) : string :=
  match s with
  | String "/"%char rest => rest
  | _ => s
  end.

(** [s.split(sep)] for a one-character separator. *)
Fixpoint split (sep : ascii) (s : string) : list string :=
  match s with
  | EmptyString => [EmptyString]
  | String c rest =>
      if Ascii.eqb c sep then EmptyString :: split sep rest
      else match split sep rest with
           | h :: t => String c h :: t
           | [] => [String c EmptyString]
           end
  end.

(** [l.at(-1)]. *)
Fixpoint at_last {A : Type} (l : list A) : option A :=
  match l with
  | [] => None
  | [x] => Some x
  | _ :: t => at_last t
  end.

(** [s.includes(c)] for a character. *)
Fixpoint has_char (c : ascii) (s : string) : bool :=
  match s with
  | EmptyString => false
  | String a rest => Ascii.eqb a c || has_char c rest
  end.

(** The syntax characters of an ECMAScript pattern. *)
Definition syntax_char (c : ascii) : bool :=
  has_char c "^$\.*+?()[]{}|".

Fixpoint literal (s : string) : bool :=
  match s with
  | EmptyString => true
  | String c rest => negb (syntax_char c) && literal rest
  end.

End Js.

(** ** The CloudFront and S3 data the service reads and writes

    Field names are those of the AWS SDK. *)

Module Origin.
Record t := mk {
  Id : option string;
  DomainName : option string;
  OriginPath : option string
}.
End Origin.

Module CacheBehavior.
Record t := mk {
  PathPattern : option string;
  TargetOriginId : option string;
  ViewerProtocolPolicy : option string
}.
End CacheBehavior.

Module DefaultCacheBehavior.
Record t := mk {
  TargetOriginId : option string;
  ViewerProtocolPolicy : option string
}.
End DefaultCacheBehavior.

(** [Aliases], [Origins] and [CacheBehaviors] are objects with an optional
    [Items] array. *)
Module Items.
Record t (A : Type) := mk { Items : option (list A) }.
Arguments mk {A} _.
Arguments Items {A} _.
End Items.

Module DistributionConfig.
Record t := mk {
  Aliases : option (Items.t string);
  Origins : option (Items.t Origin.t);
  DefaultCacheBehavior : option DefaultCacheBehavior.t;
  CacheBehaviors : option (Items.t CacheBehavior.t)
}.
End DistributionConfig.

Module Distribution.
Record t := mk {
  DomainName : option string;
  DistributionConfig : option DistributionConfig.t
}.
End Distribution.

(** [x?.Items] for an optional [x]. *)
Definition items_of {A : Type} (x : option (Items.t A)) : option (list A) :=
  match x with
  | Some i => Items.Items i
  | None => None
  end.

Module GetDistributionCommandOutput.
Record t := mk { Distribution : option Distribution.t }.
End GetDistributionCommandOutput.

(** The body of a put: [createReadStream(file.path)] or
    [new PassThrough()]. *)
Inductive Body :=
| ReadStream (path : string)
| PassThrough.

Module UploadOptions.
Record t := mk {
  ACL : option string;
  CacheControl : option string;
  ServerSideEncryption : option string;
  StorageClass : option string
}.
End UploadOptions.

Module PutObjectCommandInput.
Record t := mk {
  Bucket : option string;
  Key : string;
  Body_ : Body;
  CacheControl : option string;
  ServerSideEncryption : option string;
  StorageClass : option string;
  ACL : string
}.
End PutObjectCommandInput.

(** The file object the host passes to [upload]. *)
Module File.
Record t := mk {
  originalname : option string;
  path : option string
}.
End File.

Module FileServiceUploadResult.
Record t := mk { url : string }.
End FileServiceUploadResult.

(** ** Exceptions, events and the environment *)

Inductive Exn :=
| JsError (message : string)
| TypeError
| SyntaxError
| URIError
| RangeError
| ServiceException (name : string).

(** What a promise of an external call settles to. *)
Inductive Outcome (A : Type) :=
| Resolves (a : A)
| Rejects (e : Exn).
Arguments Resolves {A} _.
Arguments Rejects {A} _.

(** [CallerReference] is [Date.now()], before [toString()]. *)
Module CreateInvalidation.
Record t := mk {
  DistributionId : string;
  Items : list string;
  CallerReference : Z
}.
End CreateInvalidation.

Module CloudFrontSign.
Record t := mk {
  url : string;
  keyPairId : option string;
  dateLessThan : string;
  privateKey : option string
}.
End CloudFrontSign.

Inductive Event :=
| ConsoleWarn (message : string)
| ConsoleError (message : string)
| GetDistributionSent (Id : string)
    (answer : Outcome (option GetDistributionCommandOutput.t))
| PutObjectSent (input : PutObjectCommandInput.t)
    (answer : Outcome (option unit))
| DeleteObjectSent (Bucket : option string) (Key : string)
    (answer : Outcome (option unit))
| CreateInvalidationSent (input : CreateInvalidation.t)
    (answer : Outcome unit)
| S3SignRequested (input : PutObjectCommandInput.t) (expiresIn : option Z)
    (answer : Outcome string)
| CloudFrontSignRequested (input : CloudFrontSign.t)
    (answer : Outcome string).

Definition is_invalidation (e : Event) : bool :=
  match e with
  | CreateInvalidationSent _ _ => true
  | _ => false
  end.

Definition is_warning (e : Event) : bool :=
  match e with
  | ConsoleWarn _ => true
  | _ => false
  end.

(** The external collaborators.  An answer may depend on everything that
    happened before (the trace, newest event first) and on the request; the
    trace records each request with the answer it got. *)
Record Env := {
  getDistribution :
    list Event -> string -> Outcome (option GetDistributionCommandOutput.t);
  createInvalidation :
    list Event -> CreateInvalidation.t -> Outcome unit;
  putObject :
    list Event -> PutObjectCommandInput.t -> Outcome (option unit);
  deleteObject :
    list Event -> option string -> string -> Outcome (option unit);
  getS3SignedUrl :
    list Event -> PutObjectCommandInput.t -> option Z -> Outcome string;
  getCloudFrontSignedUrl :
    list Event -> CloudFrontSign.t -> Outcome string;
  Date_now : list Event -> Z
}.

(** ** The service object *)

(** The [readonly] fields, set by the constructor from the plugin options. *)
Record Options := {
  protocol_ : string;
  cloudFrontDistributionId_ : option string;
  uploadOptions_ : UploadOptions.t;
  domainName_ : option string;
  s3OriginPath_ : option string;
  cacheBehaviorPathPattern_ : option string;
  downloadUrlDuration_ : option Z;
  cloudFrontKeyPairId_ : option string;
  cloudFrontKeyPrivateKey_ : option string
}.

Record Service := {
  options : Options;
  bucketName_ : option string;
  cloudFrontDistribution_ : option Distribution.t;
  s3Origin_ : option Origin.t;
  baseUrl_ : option string;
  cacheBehavior_ : option CacheBehavior.t;
  trace : list Event
}.

Definition with_bucketName (b : option string) (s : Service) : Service :=
  {| options := options s; bucketName_ := b;
     cloudFrontDistribution_ := cloudFrontDistribution_ s;
     s3Origin_ := s3Origin_ s; baseUrl_ := baseUrl_ s;
     cacheBehavior_ := cacheBehavior_ s; trace := trace s |}.

Definition with_cloudFrontDistribution (d : option Distribution.t) (s : Service)
  : Service :=
  {| options := options s; bucketName_ := bucketName_ s;
     cloudFrontDistribution_ := d;
     s3Origin_ := s3Origin_ s; baseUrl_ := baseUrl_ s;
     cacheBehavior_ := cacheBehavior_ s; trace := trace s |}.

Definition with_s3Origin (o : option Origin.t) (s : Service) : Service :=
  {| options := options s; bucketName_ := bucketName_ s;
     cloudFrontDistribution_ := cloudFrontDistribution_ s;
     s3Origin_ := o; baseUrl_ := baseUrl_ s;
     cacheBehavior_ := cacheBehavior_ s; trace := trace s |}.

Definition with_baseUrl (b : option string) (s : Service) : Service :=
  {| options := options s; bucketName_ := bucketName_ s;
     cloudFrontDistribution_ := cloudFrontDistribution_ s;
     s3Origin_ := s3Origin_ s; baseUrl_ := b;
     cacheBehavior_ := cacheBehavior_ s; trace := trace s |}.

Definition with_cacheBehavior (c : option CacheBehavior.t) (s : Service)
  : Service :=
  {| options := options s; bucketName_ := bucketName_ s;
     cloudFrontDistribution_ := cloudFrontDistribution_ s;
     s3Origin_ := s3Origin_ s; baseUrl_ := baseUrl_ s;
     cacheBehavior_ := c; trace := trace s |}.

Definition with_event (e : Event) (s : Service) : Service :=
  {| options := options s; bucketName_ := bucketName_ s;
     cloudFrontDistribution_ := cloudFrontDistribution_ s;
     s3Origin_ := s3Origin_ s; baseUrl_ := baseUrl_ s;
     cacheBehavior_ := cacheBehavior_ s; trace := e :: trace s |}.

(** ** The monad of the methods *)

Inductive Res (A : Type) :=
| Ok (a : A)
| Throw (e : Exn).
Arguments Ok {A} _.
Arguments Throw {A} _.

Definition M (A : Type) : Type := Service -> Res A * Service.

Definition ret {A : Type} (a : A) : M A := fun s => (Ok a, s).

Definition throw {A : Type} (e : Exn) : M A := fun s => (Throw e, s).

Definition bind {A B : Type} (c : M A) (k : A -> M B) : M B :=
  fun s =>
    match c s with
    | (Ok a, s') => k a s'
    | (Throw e, s') => (Throw e, s')
    end.

(** [try { c } catch (error) { h error }]. *)
Definition try_catch {A : Type} (c : M A) (h : Exn -> M A) : M A :=
  fun s =>
    match c s with
    | (Ok a, s') => (Ok a, s')
    | (Throw e, s') => h e s'
    end.

Definition get : M Service := fun s => (Ok s, s).

Definition modify (f : Service -> Service) : M unit := fun s => (Ok tt, f s).

Definition emit (e : Event) : M unit := modify (with_event e).

(** [await promise]. *)
Definition await {A : Type} (o : Outcome A) : M A :=
  match o with
  | Resolves a => ret a
  | Rejects e => throw e
  end.

(** [await client.send(command)]: the request and its answer are recorded,
    then the answer is awaited. *)
Definition send {A : Type} (record : Outcome A -> Event) (answer : Outcome A)
  : M A :=
  fun s => await answer (with_event (record answer) s).

Declare Scope js_scope.
Delimit Scope js_scope with js.
Notation "x <- c ;; k" := (bind c (fun x => k))
  (at level 61, c at next level, right associativity) : js_scope.
Notation "c ;; k" := (bind c (fun _ => k))
  (at level 61, right associativity) : js_scope.
Local Open Scope js_scope.


(** ** The methods of [AwsStorageService] (aws-storage.ts) *)

(** The three preferences [initAwsGlobals] receives. *)
Record Prefs := {
  domainName : option string;
  s3OriginPath : option string;
  cacheBehaviorPathPattern : option string
}.

Module DeleteFileType.
Record t := mk { fileKey : string }.
End DeleteFileType.

Module GetUploadedFileType.
Record t := mk { fileKey : string }.
End GetUploadedFileType.

Definition s3_suffix : string := ".s3.amazonaws.com".

(** [Items.filter((o) => o.DomainName.endsWith('.s3.amazonaws.com'))];
    [None] when the callback dereferences an absent [DomainName]. *)
Fixpoint filter_s3 (l : list Origin.t) : option (list Origin.t) :=
  match l with
  | [] => Some []
  | o :: rest =>
      match Origin.DomainName o with
      | None => None
      | Some d =>
          match filter_s3 rest with
          | None => None
          | Some rest' =>
              Some (if Js.endsWith d s3_suffix then o :: rest' else rest')
          end
      end
  end.

(** [this.s3Origin_?.Id]. *)
Definition s3Origin_Id (s : Service) : option string :=
  match s3Origin_ s with
  | Some o => Origin.Id o
  | None => None
  end.

(** [this.s3Origin_?.OriginPath]. *)
Definition s3Origin_OriginPath (s : Service) : option string :=
  match s3Origin_ s with
  | Some o => Origin.OriginPath o
  | None => None
  end.

(** The local [defaultCacheBehavior] of [setCacheBehaviorPathPattern]. *)
Definition defaultCacheBehavior (dc : DistributionConfig.t) (s : Service)
  : CacheBehavior.t :=
  match DistributionConfig.DefaultCacheBehavior dc with
  | Some d =>
      CacheBehavior.mk (Some "*")
        (DefaultCacheBehavior.TargetOriginId d)
        (DefaultCacheBehavior.ViewerProtocolPolicy d)
  | None =>
      CacheBehavior.mk (Some "*") (s3Origin_Id s) (Some "allow-all")
  end.

Definition getKeyFromFile (s : Service) (file : option File.t) : string :=
  match file with
  | None => ""
  | Some f =>
      let key :=
        match s3Origin_OriginPath s with
        | Some p =>
            if Js.nonempty p then Js.strip_leading_slash p ++ "/" else ""
        | None => ""
        end in
      key ++ Js.tmpl (File.originalname f)
  end.

Definition getPutObjectCommandInput (s : Service) (file : option File.t)
  (isProtected : bool) : PutObjectCommandInput.t :=
  let file_path :=
    match file with
    | Some f => File.path f
    | None => None
    end in
  let u := uploadOptions_ (options s) in
  {| PutObjectCommandInput.Bucket := bucketName_ s;
     PutObjectCommandInput.Key := getKeyFromFile s file;
     PutObjectCommandInput.Body_ :=
       match file_path with
       | Some p => if Js.nonempty p then ReadStream p else PassThrough
       | None => PassThrough
       end;
     PutObjectCommandInput.CacheControl := UploadOptions.CacheControl u;
     PutObjectCommandInput.ServerSideEncryption :=
       UploadOptions.ServerSideEncryption u;
     PutObjectCommandInput.StorageClass := UploadOptions.StorageClass u;
     PutObjectCommandInput.ACL :=
       if isProtected then "private"
       else match UploadOptions.ACL u with
            | Some a => if Js.nonempty a then a else "public-read"
            | None => "public-read"
            end |}.

Section Methods.

(** The external collaborators. *)
Variable env : Env.

(** [new RegExp(source)]: [None] when the constructor throws a
    [SyntaxError]; otherwise the regular expression, given by what
    [subject.replace(re, '')] returns. *)
Variable new_RegExp : string -> option (string -> string).

(** [encodeURI]; [None] when it throws a [URIError]. *)
Variable encodeURI : string -> option string.

(** [new Date(t).toISOString()] for a time value [t] in milliseconds;
    [None] when it throws a [RangeError]. *)
Variable toISOString : Z -> option string.

Definition getCloudFrontDistribution (distributionId : string)
  : M (option Distribution.t) :=
  s <- get ;;
  response <-
    send (GetDistributionSent distributionId)
      (getDistribution env (trace s) distributionId) ;;
  match response with
  | None => throw (JsError "Could not get CloudFront distribution")
  | Some r => ret (GetDistributionCommandOutput.Distribution r)
  end.

Definition setDefaults (s3OriginPath domainName : option string) : M unit :=
  s <- get ;;
  modify (with_baseUrl
    (Some (protocol_ (options s) ++ "://" ++ Js.tmpl (bucketName_ s) ++ s3_suffix))) ;;
  modify (with_s3Origin None) ;;
  modify (with_cacheBehavior None) ;;
  (if Js.truthy domainName
   then modify (with_baseUrl
          (Some (protocol_ (options s) ++ "://" ++ Js.tmpl domainName)))
   else ret tt) ;;
  (if Js.truthy s3OriginPath
   then modify (with_s3Origin
          (Some (Origin.mk (Some "")
                   (Some (Js.tmpl (bucketName_ s) ++ s3_suffix))
                   s3OriginPath)))
   else ret tt).

Definition setBaseUrl (distribution : option Distribution.t)
  (domainName : option string) : M string :=
  match distribution with
  | None => throw TypeError
  | Some d =>
      s <- get ;;
      let baseUrl := Js.tmpl (bucketName_ s) ++ s3_suffix in
      let distributionConfig := Distribution.DistributionConfig d in
      let baseUrl :=
        if Js.truthy (Distribution.DomainName d)
        then Js.tmpl (Distribution.DomainName d) else baseUrl in
      baseUrl <-
        (if Js.truthy domainName then
           match
             match distributionConfig with
             | Some dc => items_of (DistributionConfig.Aliases dc)
             | None => None
             end
           with
           | Some (a :: l) =>
               if negb (existsb (String.eqb (Js.tmpl domainName)) (a :: l))
               then
                 emit (ConsoleWarn
                   ("Domain name '" ++ Js.tmpl domainName ++
                    "' is not included in the CloudFront distribution aliases. Using distribution domain name.")) ;;
                 ret baseUrl
               else ret (Js.tmpl domainName)
           | _ =>
               emit (ConsoleWarn
                 "CloudFront distribution does not have any aliases. Using distribution domain name.") ;;
               ret baseUrl
           end
         else ret baseUrl) ;;
      ret (protocol_ (options s) ++ "://" ++ baseUrl)
  end.

Definition setS3Origin (distributionConfig : option DistributionConfig.t)
  (s3Origin : option string) : M (option Origin.t) :=
  match distributionConfig with
  | None => throw TypeError
  | Some dc =>
      s3Origins <-
        match items_of (DistributionConfig.Origins dc) with
        | None => ret []
        | Some items =>
            match filter_s3 items with
            | None => throw TypeError
            | Some l => ret l
            end
        end ;;
      let defaultCacheBehaviorOriginId :=
        match DistributionConfig.DefaultCacheBehavior dc with
        | Some d => DefaultCacheBehavior.TargetOriginId d
        | None => None
        end in
      let origin :=
        match
          find (fun o => Js.seq (Origin.Id o) defaultCacheBehaviorOriginId)
            s3Origins
        with
        | Some o => Some o
        | None => hd_error s3Origins
        end in
      let notFoundMessage :=
        "S3 origin path '" ++ Js.tmpl s3Origin ++
        "' is not included in the CloudFront distribution origins. Using default cache behavior S3 origin." in
      origin <-
        match s3Origins with
        | _ :: _ =>
            if Js.truthy s3Origin then
              let foundOrigin :=
                find (fun o => Js.seq (Origin.OriginPath o) s3Origin)
                  s3Origins in
              match foundOrigin, origin with
              | None, Some _ => emit (ConsoleWarn notFoundMessage) ;; ret origin
              | _, _ => ret foundOrigin
              end
            else ret origin
        | [] =>
            match origin with
            | Some _ =>
                if Js.truthy s3Origin
                then emit (ConsoleWarn notFoundMessage) ;; ret origin
                else ret origin
            | None => ret origin
            end
        end ;;
      match origin with
      | None => emit (ConsoleError "Could not find S3 origin") ;; ret origin
      | Some _ => ret origin
      end
  end.

Definition validateS3BucketName (origin : option Origin.t) : M unit :=
  match origin with
  | None => throw TypeError
  | Some o =>
      match Origin.DomainName o with
      | None => throw TypeError
      | Some d =>
          let originBucketName := Js.replace_first s3_suffix d in
          s <- get ;;
          if negb (Js.truthy (bucketName_ s)) then
            emit (ConsoleWarn
              "S3 bucket name is not provided. Using the bucket name from the CloudFront distribution origin.") ;;
            modify (with_bucketName (Some originBucketName))
          else if negb (Js.seq (Some originBucketName) (bucketName_ s)) then
            emit (ConsoleWarn
              ("CloudFront distribution's S3 origin bucket name '" ++
               originBucketName ++
               "' does not match the provided S3 bucket name '" ++
               Js.tmpl (bucketName_ s) ++
               "'. Using CloudFront distribution's S3 origin bucket name.")) ;;
            modify (with_bucketName (Some originBucketName))
          else ret tt
      end
  end.

Definition setCacheBehaviorPathPattern
  (distributionConfig : option DistributionConfig.t)
  (cacheBehaviorPathPattern : option string) : M CacheBehavior.t :=
  match distributionConfig with
  | None => throw TypeError
  | Some dc =>
      s <- get ;;
      let notFoundMessage :=
        "Cache behavior path pattern '" ++ Js.tmpl cacheBehaviorPathPattern ++
        "' is not included in the CloudFront distribution cache behaviors. Using default Cache Behavior." in
      let defaultCacheBehavior := defaultCacheBehavior dc s in
      cacheBehavior <-
        match items_of (DistributionConfig.CacheBehaviors dc) with
        | Some (c :: l) =>
            if Js.truthy cacheBehaviorPathPattern then
              match
                find (fun c => Js.seq (CacheBehavior.PathPattern c)
                                 cacheBehaviorPathPattern) (c :: l)
              with
              | None =>
                  emit (ConsoleWarn notFoundMessage) ;; ret defaultCacheBehavior
              | Some foundCacheBehavior => ret foundCacheBehavior
              end
            else ret defaultCacheBehavior
        | _ =>
            if Js.truthy cacheBehaviorPathPattern
            then emit (ConsoleWarn notFoundMessage) ;; ret defaultCacheBehavior
            else ret defaultCacheBehavior
        end ;;
      if negb (Js.seq (CacheBehavior.TargetOriginId cacheBehavior)
                 (s3Origin_Id s))
      then
        let targetOrigin :=
          match items_of (DistributionConfig.Origins dc) with
          | Some items =>
              find (fun o => Js.seq (Origin.Id o)
                               (CacheBehavior.TargetOriginId cacheBehavior))
                items
          | None => None
          end in
        emit (ConsoleWarn
          ("Cache behavior target origin '" ++
           Js.tmpl (match targetOrigin with
                    | Some o => Origin.OriginPath o
                    | None => None
                    end) ++
           "' is not included in the CloudFront distribution origins. Using default Cache Behavior.")) ;;
        ret defaultCacheBehavior
      else ret cacheBehavior
  end.

(** A computation that only reads the service object. *)
Definition lift {A : Type} (f : Service -> Res A) : M A :=
  fun s => (f s, s).

(** [getUrlFromKey] reads [this] and may throw from [new RegExp]; it has
    the same text in aws-storage.ts and in s3.ts. *)
Definition getUrlFromKey (key : string) (relative : bool) (s : Service)
  : Res string :=
  let relativePath := "/" ++ key in
  let rewritten :=
    match cacheBehavior_ s with
    | Some cb =>
        let originPath :=
          match s3Origin_OriginPath s with
          | Some p => p
          | None => ""
          end in
        let pathPattern := CacheBehavior.PathPattern cb in
        if Js.nonempty originPath then
          match new_RegExp ("^" ++ originPath) with
          | None => Throw SyntaxError
          | Some searchValue =>
              if Js.seq pathPattern (Some "*")
              then Ok (searchValue relativePath)
              else Ok relativePath
          end
        else
          if Js.seq pathPattern (Some "*")
          then Ok (Js.replace_first "" relativePath)
          else Ok relativePath
    | None => Ok relativePath
    end in
  match rewritten with
  | Throw e => Throw e
  | Ok relativePath =>
      if relative then Ok relativePath
      else Ok (Js.tmpl (baseUrl_ s) ++ relativePath)
  end.

(** [getKeyFromUrl] of s3.ts (aws-storage.ts has no such method). *)
Definition getKeyFromUrl (url : string) (s : Service) : string :=
  let relativePath := Js.replace_first (Js.tmpl (baseUrl_ s)) url in
  let relativePath :=
    match cacheBehavior_ s with
    | Some cb =>
        let originPath :=
          match s3Origin_OriginPath s with
          | Some p => p
          | None => ""
          end in
        if Js.seq (CacheBehavior.PathPattern cb) (Some "*")
        then originPath ++ relativePath
        else relativePath
    | None => relativePath
    end in
  Js.strip_leading_slash relativePath.

Definition initAwsGlobals (p : Prefs) : M unit :=
  s <- get ;;
  if negb (Js.truthy (cloudFrontDistributionId_ (options s))) then
    setDefaults (s3OriginPath p) (domainName p)
  else
    try_catch
      (distribution <-
         getCloudFrontDistribution
           (Js.tmpl (cloudFrontDistributionId_ (options s))) ;;
       modify (with_cloudFrontDistribution distribution) ;;
       distributionConfig <-
         match distribution with
         | None => throw TypeError
         | Some d => ret (Distribution.DistributionConfig d)
         end ;;
       origin <- setS3Origin distributionConfig (s3OriginPath p) ;;
       modify (with_s3Origin origin) ;;
       validateS3BucketName origin ;;
       baseUrl <- setBaseUrl distribution (domainName p) ;;
       modify (with_baseUrl (Some baseUrl)) ;;
       cacheBehavior <-
         setCacheBehaviorPathPattern distributionConfig
           (cacheBehaviorPathPattern p) ;;
       modify (with_cacheBehavior (Some cacheBehavior)))
      (fun error => setDefaults (s3OriginPath p) None).

(** The preferences every public method passes to [initAwsGlobals]. *)
Definition own_prefs (s : Service) : Prefs :=
  {| domainName := domainName_ (options s);
     s3OriginPath := s3OriginPath_ (options s);
     cacheBehaviorPathPattern := cacheBehaviorPathPattern_ (options s) |}.

Definition invalidateFile (path : string) : M unit :=
  s <- get ;;
  if negb (Js.truthy (cloudFrontDistributionId_ (options s)))
     || negb (Js.nonempty path)
  then ret tt
  else
    try_catch
      (match encodeURI path with
       | None => throw URIError
       | Some encoded =>
           let input :=
             {| CreateInvalidation.DistributionId :=
                  Js.tmpl (cloudFrontDistributionId_ (options s));
                CreateInvalidation.Items := [encoded];
                CreateInvalidation.CallerReference :=
                  Date_now env (trace s) |} in
           send (CreateInvalidationSent input)
             (createInvalidation env (trace s) input)
       end)
      (fun e => emit (ConsoleWarn ("Invalidation failed for path: " ++ path))).

Definition uploadFile (file : option File.t) (isProtected : bool)
  : M FileServiceUploadResult.t :=
  s <- get ;;
  let params := getPutObjectCommandInput s file isProtected in
  data <- send (PutObjectSent params) (putObject env (trace s) params) ;;
  match data with
  | None => throw (JsError "File upload failed")
  | Some _ =>
      path <- lift (getUrlFromKey (PutObjectCommandInput.Key params) true) ;;
      invalidateFile path ;;
      url <- lift (getUrlFromKey (PutObjectCommandInput.Key params) false) ;;
      ret (FileServiceUploadResult.mk url)
  end.

Definition removeFile (fileKey : string) : M unit :=
  s <- get ;;
  data <-
    send (DeleteObjectSent (bucketName_ s) fileKey)
      (deleteObject env (trace s) (bucketName_ s) fileKey) ;;
  match data with
  | None => throw (JsError "File deletion failed")
  | Some _ => ret tt
  end.

Definition upload (file : option File.t) : M FileServiceUploadResult.t :=
  s <- get ;;
  initAwsGlobals (own_prefs s) ;;
  uploadFile file false.

Definition uploadProtected (file : option File.t)
  : M FileServiceUploadResult.t :=
  s <- get ;;
  initAwsGlobals (own_prefs s) ;;
  uploadFile file true.

Definition delete (file : DeleteFileType.t) : M unit :=
  s <- get ;;
  initAwsGlobals (own_prefs s) ;;
  removeFile (DeleteFileType.fileKey file).

Definition getPresignedDownloadUrl (fileData : GetUploadedFileType.t)
  : M string :=
  s0 <- get ;;
  initAwsGlobals (own_prefs s0) ;;
  let fileName :=
    Js.at_last (Js.split "/" (GetUploadedFileType.fileKey fileData)) in
  let file := File.mk fileName None in
  s <- get ;;
  let params := getPutObjectCommandInput s (Some file) false in
  if negb (Js.truthy (cloudFrontDistributionId_ (options s))) then
    send (S3SignRequested params (downloadUrlDuration_ (options s)))
      (getS3SignedUrl env (trace s) params (downloadUrlDuration_ (options s)))
  else
    let now := Date_now env (trace s) in
    url <- lift (getUrlFromKey (PutObjectCommandInput.Key params) false) ;;
    dateLessThan <-
      match downloadUrlDuration_ (options s) with
      | None => throw RangeError
      | Some duration =>
          match toISOString (now + duration * 1000)%Z with
          | None => throw RangeError
          | Some iso => ret iso
          end
      end ;;
    let input :=
      {| CloudFrontSign.url := url;
         CloudFrontSign.keyPairId := cloudFrontKeyPairId_ (options s);
         CloudFrontSign.dateLessThan := dateLessThan;
         CloudFrontSign.privateKey := cloudFrontKeyPrivateKey_ (options s) |} in
    send (CloudFrontSignRequested input)
      (getCloudFrontSignedUrl env (trace s) input).

End Methods.

(** ** The constructor and the stream methods (aws-storage.ts) *)

(** The options the host passes to the constructor; [use_https] is the
    truthiness of the option. *)
Module PluginOptions.
Record t := mk {
  access_key_id : option string;
  secret_access_key : option string;
  region : option string;
  s3_bucket : option string;
  s3_origin_path : option string;
  s3_upload_options : option UploadOptions.t;
  cloud_front_distribution_id : option string;
  domain_name : option string;
  cloud_front_cache_behavior_path_pattern : option string;
  download_url_duration : option Z;
  cloud_front_key_pair_id : option string;
  cloud_front_key_private_key : option string;
  use_https : bool
}.
End PluginOptions.

(** [new AwsStorageService(container, options)]: the three checks only
    write to the console; the fields are copied from the options, and the
    resolved fields are still [undefined]. *)
Definition new_AwsStorageService (o : PluginOptions.t) : Service :=
  let credentials_missing :=
    negb (Js.truthy (PluginOptions.access_key_id o))
    || negb (Js.truthy (PluginOptions.secret_access_key o)) in
  let region_missing := negb (Js.truthy (PluginOptions.region o)) in
  let storage_missing :=
    negb (Js.truthy (PluginOptions.s3_bucket o))
    && negb (Js.truthy (PluginOptions.cloud_front_distribution_id o)) in
  {| options :=
       {| protocol_ := if PluginOptions.use_https o then "https" else "http";
          cloudFrontDistributionId_ := PluginOptions.cloud_front_distribution_id o;
          uploadOptions_ :=
            match PluginOptions.s3_upload_options o with
            | Some u => u
            | None => UploadOptions.mk None None None None
            end;
          domainName_ := PluginOptions.domain_name o;
          s3OriginPath_ := PluginOptions.s3_origin_path o;
          cacheBehaviorPathPattern_ :=
            PluginOptions.cloud_front_cache_behavior_path_pattern o;
          downloadUrlDuration_ := PluginOptions.download_url_duration o;
          cloudFrontKeyPairId_ := PluginOptions.cloud_front_key_pair_id o;
          cloudFrontKeyPrivateKey_ :=
            PluginOptions.cloud_front_key_private_key o |};
     bucketName_ := PluginOptions.s3_bucket o;
     cloudFrontDistribution_ := None;
     s3Origin_ := None;
     baseUrl_ := None;
     cacheBehavior_ := None;
     trace :=
       ((if storage_missing
         then [ConsoleError
                 "You must provide either a S3 bucket name or a CloudFront distribution ID"]
         else []) ++
        (if region_missing
         then [ConsoleError "You must provide a region"] else []) ++
        (if credentials_missing
         then [ConsoleError
                 "You must provide an access key ID and a secret access key"]
         else []))%list |}.

Module UploadStreamDescriptorType.
Record t := mk {
  name : option string;
  ext : option string
}.
End UploadStreamDescriptorType.

(** [promise] is the promise of the put, as it will settle. *)
Module FileServiceGetUploadStreamResult.
Record t := mk {
  writeStream : Body;
  promise : Outcome (option unit);
  url : string;
  fileKey : string
}.
End FileServiceGetUploadStreamResult.

(** What [s3Client_.send(new GetObjectCommand(...))] resolves to: [Body],
    when present, with what [Body.transformToByteArray()] settles to. *)
Module GetObjectCommandOutput.
Record t := mk { Body : option (Outcome (list Byte.byte)) }.
End GetObjectCommandOutput.

Section StreamMethods.

Variable env : Env.
Variable new_RegExp : string -> option (string -> string).

(** The object store's get, a collaborator beside those of [Env]: its
    answer may depend on the trace so far, the bucket and the key.  The
    trace has no event for a get. *)
Variable getObject :
  list Event -> option string -> string ->
  Outcome (option GetObjectCommandOutput.t).

(** The put is sent and not awaited: its promise is handed to the caller. *)
Definition getUploadStreamDescriptor (fileData : UploadStreamDescriptorType.t)
  : M FileServiceGetUploadStreamResult.t :=
  s0 <- get ;;
  initAwsGlobals env (own_prefs s0) ;;
  let fileName :=
    Js.tmpl (UploadStreamDescriptorType.name fileData) ++ "." ++
    Js.tmpl (UploadStreamDescriptorType.ext fileData) in
  let file := File.mk (Some fileName) None in
  s <- get ;;
  let params := getPutObjectCommandInput s (Some file) false in
  let promise := putObject env (trace s) params in
  emit (PutObjectSent params promise) ;;
  url <- lift (getUrlFromKey new_RegExp (PutObjectCommandInput.Key params) false) ;;
  ret (FileServiceGetUploadStreamResult.mk
         (PutObjectCommandInput.Body_ params) promise url
         (PutObjectCommandInput.Key params)).

(** [Readable.from(byteArray)] is given by the bytes it yields. *)
Definition getDownloadStream (fileData : GetUploadedFileType.t)
  : M (list Byte.byte) :=
  s0 <- get ;;
  initAwsGlobals env (own_prefs s0) ;;
  s <- get ;;
  data <-
    await (getObject (trace s) (bucketName_ s)
             (GetUploadedFileType.fileKey fileData)) ;;
  match data with
  | None => throw (JsError "File not found")
  | Some output =>
      match GetObjectCommandOutput.Body output with
      | None => throw (JsError "File not found")
      | Some bytes => await bytes
      end
  end.

End StreamMethods.

(** ** Observations on runs *)

(** The events configuration resolution may record: console lines and the
    fetch of the distribution. *)
Definition resolution_event (e : Event) : bool :=
  match e with
  | ConsoleWarn _ | ConsoleError _ | GetDistributionSent _ _ => true
  | _ => false
  end.

(** [grows P s s']: the trace of [s'] is the trace of [s] with new events
    on top, all satisfying [P]. *)
Definition grows (P : Event -> bool) (s s' : Service) : Prop :=
  exists new, trace s' = (new ++ trace s)%list /\ forallb P new = true.

(** A step that leaves the options alone and records resolution events. *)
Definition evolves (s s' : Service) : Prop :=
  options s' = options s /\ grows resolution_event s s'.

(** A step that, besides, leaves every resolved field but the bucket name
    alone. *)
Definition quiet (s s' : Service) : Prop :=
  evolves s s' /\
  cloudFrontDistribution_ s' = cloudFrontDistribution_ s /\
  s3Origin_ s' = s3Origin_ s /\
  baseUrl_ s' = baseUrl_ s /\
  cacheBehavior_ s' = cacheBehavior_ s.

(** [Holds R c]: every run of [c] relates the state before to the state
    after by [R]. *)
Definition Holds (R : Service -> Service -> Prop) {A : Type} (c : M A) : Prop :=
  forall s, R s (snd (c s)).

(** What configuration resolution leaves for the codec. *)
Definition resolved (s : Service)
  : option string * option Origin.t * option CacheBehavior.t :=
  (baseUrl_ s, s3Origin_ s, cacheBehavior_ s).

Definition is_put (e : Event) : bool :=
  match e with
  | PutObjectSent _ _ => true
  | _ => false
  end.

(** The invalidation request [invalidateFile] builds for a path. *)
Definition invalidation_of (env : Env) (path : string) (s : Service)
  : CreateInvalidation.t :=
  {| CreateInvalidation.DistributionId :=
       Js.tmpl (cloudFrontDistributionId_ (options s));
     CreateInvalidation.Items := [path];
     CreateInvalidation.CallerReference := Date_now env (trace s) |}.

Definition invalidation_failed (path : string) : Event :=
  ConsoleWarn ("Invalidation failed for path: " ++ path).

(** The prefix [getKeyFromFile] puts in front of a file name. *)
Definition key_prefix (s : Service) : string :=
  getKeyFromFile s (Some (File.mk (Some "") None)).

(** What is assumed of [RegExp] for a source [^text] whose [text] has no
    syntax character: it compiles, and replacing its match by the empty
    string removes the literal prefix [text] when the subject starts with
    it, and changes nothing otherwise. *)
Definition RegExp_literal_prefix
  (new_RegExp : string -> option (string -> string)) : Prop :=
  forall text,
    Js.literal text = true ->
    exists searchValue,
      new_RegExp ("^" ++ text) = Some searchValue /\
      forall subject,
        searchValue subject =
        match Js.strip_prefix text subject with
        | Some rest => rest
        | None => subject
        end.

(** Console lines. *)
Definition is_console (e : Event) : bool :=
  match e with
  | ConsoleWarn _ | ConsoleError _ => true
  | _ => false
  end.

Definition is_fetch (e : Event) : bool :=
  match e with
  | GetDistributionSent _ _ => true
  | _ => false
  end.

(** A step that changes nothing but the console: it leaves every field
    alone and records console lines only. *)
Definition logs (s s' : Service) : Prop :=
  options s' = options s /\
  bucketName_ s' = bucketName_ s /\
  resolved s' = resolved s /\
  cloudFrontDistribution_ s' = cloudFrontDistribution_ s /\
  grows is_console s s'.

(** [contains p x]: the string [p] occurs in [x]. *)
Definition contains (p x : string) : Prop :=
  exists a b, x = a ++ p ++ b.

(** The storage-eligible origins [setS3Origin] filters out of a
    distribution configuration; [None] when the filter throws. *)
Definition s3Origins_of (dc : DistributionConfig.t) : option (list Origin.t) :=
  match items_of (DistributionConfig.Origins dc) with
  | None => Some []
  | Some items => filter_s3 items
  end.

(** The default candidate of [setS3Origin]: the storage-eligible origin the
    default cache behavior targets, or else the first one. *)
Definition default_origin (dc : DistributionConfig.t) (l : list Origin.t)
  : option Origin.t :=
  match
    find (fun o =>
            Js.seq (Origin.Id o)
              match DistributionConfig.DefaultCacheBehavior dc with
              | Some d => DefaultCacheBehavior.TargetOriginId d
              | None => None
              end) l
  with
  | Some o => Some o
  | None => hd_error l
  end.

Definition origin_not_found (s3Origin : option string) : Event :=
  ConsoleWarn
    ("S3 origin path '" ++ Js.tmpl s3Origin ++
     "' is not included in the CloudFront distribution origins. Using default cache behavior S3 origin.").

(** ** Concrete configurations

    A bucket [b] behind a distribution with two origins, a web server and
    the bucket's [/assets] prefix, and an [images/*] behavior that serves
    the bucket; used to run the methods on explicit inputs. *)

Module Scenario.

(** An instance of the [RegExp] parameter for the sources [^text] where
    [text] has no syntax character: the match is the literal prefix.  Other
    sources are outside this instance, which rejects them. *)
Definition anchored_literal_RegExp (source : string)
  : option (string -> string) :=
  match source with
  | String "^"%char text =>
      if Js.literal text
      then Some (fun subject =>
                   match Js.strip_prefix text subject with
                   | Some rest => rest
                   | None => subject
                   end)
      else None
  | _ => None
  end.

(** An instance of the [encodeURI] parameter for paths made of characters
    [encodeURI] leaves as they are. *)
Definition encodeURI_unreserved (path : string) : option string := Some path.

Definition toISOString_epoch (t : Z) : option string :=
  if (t =? 3600000)%Z then Some "1970-01-01T01:00:00.000Z" else None.

Definition web_origin : Origin.t :=
  Origin.mk (Some "web") (Some "www.example.com") None.

Definition media_origin : Origin.t :=
  Origin.mk (Some "media") (Some "b.s3.amazonaws.com") (Some "/assets").

Definition images_behavior : CacheBehavior.t :=
  CacheBehavior.mk (Some "images/*") (Some "media") (Some "allow-all").

(** The default cache behavior targets [default_target]; the aliases are
    [aliases]; the distribution's own domain name is [own_domain]. *)
Definition distribution (own_domain : option string) (aliases : list string)
  (default_target : string) : Distribution.t :=
  Distribution.mk own_domain
    (Some (DistributionConfig.mk
             (Some (Items.mk (Some aliases)))
             (Some (Items.mk (Some [web_origin; media_origin])))
             (Some (DefaultCacheBehavior.mk (Some default_target)
                      (Some "allow-all")))
             (Some (Items.mk (Some [images_behavior]))))).

(** The collaborators: the distribution fetch answers [fetch], every put
    answers [put], every delete answers [del], every invalidation answers
    [invalidation]. *)
Definition env (fetch : Outcome (option GetDistributionCommandOutput.t))
  (put del : Outcome (option unit)) (invalidation : Outcome unit) : Env :=
  {| getDistribution := fun _ _ => fetch;
     createInvalidation := fun _ _ => invalidation;
     putObject := fun _ _ => put;
     deleteObject := fun _ _ _ => del;
     getS3SignedUrl := fun _ _ _ => Resolves "https://signed.example/s3";
     getCloudFrontSignedUrl := fun _ _ => Resolves "https://signed.example/cf";
     Date_now := fun _ => 0%Z |}.

Definition fetched (d : Distribution.t)
  : Outcome (option GetDistributionCommandOutput.t) :=
  Resolves (Some (GetDistributionCommandOutput.mk (Some d))).

Definition fetch_fails : Outcome (option GetDistributionCommandOutput.t) :=
  Rejects (ServiceException "NoSuchDistribution").

(** A freshly constructed service for bucket [b] over https. *)
Definition service (distributionId : option string) (p : Prefs) : Service :=
  {| options :=
       {| protocol_ := "https";
          cloudFrontDistributionId_ := distributionId;
          uploadOptions_ := UploadOptions.mk None None None None;
          domainName_ := domainName p;
          s3OriginPath_ := s3OriginPath p;
          cacheBehaviorPathPattern_ := cacheBehaviorPathPattern p;
          downloadUrlDuration_ := Some 3600%Z;
          cloudFrontKeyPairId_ := Some "K1";
          cloudFrontKeyPrivateKey_ := Some "pem" |};
     bucketName_ := Some "b";
     cloudFrontDistribution_ := None;
     s3Origin_ := None;
     baseUrl_ := None;
     cacheBehavior_ := None;
     trace := [] |}.

Definition no_prefs : Prefs :=
  {| domainName := None; s3OriginPath := None;
     cacheBehaviorPathPattern := None |}.

End Scenario.

(** ** Reasoning about runs *)

Lemma grows_refl (P : Event -> bool) (s : Service) : grows P s s.
Proof. exists []. split; reflexivity. Qed.

Lemma grows_trans (P : Event -> bool) (a b c : Service) :
  grows P a b -> grows P b c -> grows P a c.
Proof.
  intros [n1 [E1 F1]] [n2 [E2 F2]].
  exists (n2 ++ n1)%list. split.
  - rewrite E2, E1. apply app_assoc.
  - rewrite forallb_app, F1, F2. reflexivity.
Qed.

Lemma grows_event (P : Event -> bool) (e : Event) (s : Service) :
  P e = true -> grows P s (with_event e s).
Proof.
  intros H. exists [e]. split; [reflexivity|].
  simpl. rewrite H. reflexivity.
Qed.

Lemma grows_weaken (P Q : Event -> bool) (s s' : Service) :
  (forall e, P e = true -> Q e = true) -> grows P s s' -> grows Q s s'.
Proof.
  intros H [new [E F]]. exists new. split; [exact E|].
  rewrite forallb_forall in *. auto.
Qed.

Lemma evolves_refl (s : Service) : evolves s s.
Proof. split; [reflexivity | apply grows_refl]. Qed.

Lemma evolves_trans (a b c : Service) :
  evolves a b -> evolves b c -> evolves a c.
Proof.
  intros [O1 G1] [O2 G2]. split.
  - congruence.
  - eapply grows_trans; eassumption.
Qed.

Lemma quiet_refl (s : Service) : quiet s s.
Proof. repeat split; try reflexivity. apply grows_refl. Qed.

Lemma quiet_trans (a b c : Service) : quiet a b -> quiet b c -> quiet a c.
Proof.
  intros [E1 [D1 [O1 [B1 C1]]]] [E2 [D2 [O2 [B2 C2]]]].
  split; [eapply evolves_trans; eassumption|].
  repeat split; congruence.
Qed.

Lemma quiet_evolves (s s' : Service) : quiet s s' -> evolves s s'.
Proof. intros [E _]. exact E. Qed.

Section Frames.

(** A reflexive and transitive relation between the state before and the
    state after is kept by the combinators of the monad. *)
Variable R : Service -> Service -> Prop.
Hypothesis R_refl : forall s, R s s.
Hypothesis R_trans : forall a b c, R a b -> R b c -> R a c.

Lemma Holds_ret {A : Type} (a : A) : Holds R (ret a).
Proof. intros s. apply R_refl. Qed.

Lemma Holds_throw {A : Type} (e : Exn) : Holds R (@throw A e).
Proof. intros s. apply R_refl. Qed.

Lemma Holds_get : Holds R get.
Proof. intros s. apply R_refl. Qed.

Lemma Holds_lift {A : Type} (f : Service -> Res A) : Holds R (lift f).
Proof. intros s. apply R_refl. Qed.

Lemma Holds_await {A : Type} (o : Outcome A) : Holds R (await o).
Proof. intros s. destruct o; apply R_refl. Qed.

Lemma Holds_modify (f : Service -> Service) :
  (forall s, R s (f s)) -> Holds R (modify f).
Proof. intros H s. apply H. Qed.

Lemma Holds_send {A : Type} (record : Outcome A -> Event) (o : Outcome A) :
  (forall s, R s (with_event (record o) s)) -> Holds R (send record o).
Proof. intros H s. unfold send. destruct o; apply H. Qed.

Lemma Holds_bind {A B : Type} (c : M A) (k : A -> M B) :
  Holds R c -> (forall a, Holds R (k a)) -> Holds R (bind c k).
Proof.
  intros Hc Hk s. unfold bind. specialize (Hc s).
  destruct (c s) as [[a|e] s1]; simpl in *.
  - eapply R_trans; [exact Hc | apply Hk].
  - exact Hc.
Qed.

Lemma Holds_try_catch {A : Type} (c : M A) (h : Exn -> M A) :
  Holds R c -> (forall e, Holds R (h e)) -> Holds R (try_catch c h).
Proof.
  intros Hc Hh s. unfold try_catch. specialize (Hc s).
  destruct (c s) as [[a|e] s1]; simpl in *.
  - exact Hc.
  - eapply R_trans; [exact Hc | apply Hh].
Qed.

End Frames.

(** Splits a goal [Holds R c] along the structure of [c]. *)
Ltac frame refl trans :=
  repeat first
    [ apply Holds_ret; exact refl
    | apply Holds_throw; exact refl
    | apply Holds_get; exact refl
    | apply Holds_lift; exact refl
    | apply Holds_await; exact refl
    | apply Holds_bind; [exact trans | | intros ?]
    | apply Holds_try_catch; [exact trans | | intros ?]
    | match goal with
      | |- Holds _ (match ?x with _ => _ end) => destruct x
      | |- Holds _ (if ?b then _ else _) => destruct b
      end ].

Lemma quiet_warn (m : string) (s : Service) :
  quiet s (with_event (ConsoleWarn m) s).
Proof.
  repeat split; try reflexivity. apply grows_event. reflexivity.
Qed.

Lemma quiet_error (m : string) (s : Service) :
  quiet s (with_event (ConsoleError m) s).
Proof.
  repeat split; try reflexivity. apply grows_event. reflexivity.
Qed.

Lemma quiet_bucketName (b : option string) (s : Service) :
  quiet s (with_bucketName b s).
Proof. repeat split; try reflexivity. exists []. split; reflexivity. Qed.

Lemma Holds_quiet_warn (m : string) : Holds quiet (emit (ConsoleWarn m)).
Proof. intros s. apply quiet_warn. Qed.

Lemma Holds_quiet_error (m : string) : Holds quiet (emit (ConsoleError m)).
Proof. intros s. apply quiet_error. Qed.

Ltac quiet_frame :=
  repeat first
    [ apply Holds_quiet_warn
    | apply Holds_quiet_error
    | apply Holds_modify; intros ?; apply quiet_bucketName
    | progress frame quiet_refl quiet_trans ].

Section MethodFrames.

Variable env : Env.

Lemma getCloudFrontDistribution_quiet (id : string) :
  Holds quiet (getCloudFrontDistribution env id).
Proof.
  unfold getCloudFrontDistribution. intros s.
  unfold bind, get, send. simpl.
  assert (Q : quiet s (with_event
    (GetDistributionSent id (getDistribution env (trace s) id)) s)).
  { repeat split; try reflexivity. apply grows_event. reflexivity. }
  destruct (getDistribution env (trace s) id) as [[r|]|e]; simpl; exact Q.
Qed.

Lemma setS3Origin_quiet (dc : option DistributionConfig.t) (p : option string) :
  Holds quiet (setS3Origin dc p).
Proof. unfold setS3Origin. quiet_frame. Qed.

Lemma validateS3BucketName_quiet (o : option Origin.t) :
  Holds quiet (validateS3BucketName o).
Proof. unfold validateS3BucketName. quiet_frame. Qed.

Lemma setBaseUrl_quiet (d : option Distribution.t) (dn : option string) :
  Holds quiet (setBaseUrl d dn).
Proof. unfold setBaseUrl. quiet_frame. Qed.

Lemma setCacheBehaviorPathPattern_quiet (dc : option DistributionConfig.t)
  (p : option string) : Holds quiet (setCacheBehaviorPathPattern dc p).
Proof. unfold setCacheBehaviorPathPattern. quiet_frame. Qed.

End MethodFrames.

(** ** Facts about the string functions *)

Lemma seq_true (a b : option string) : Js.seq a b = true -> a = b.
Proof.
  destruct a as [x|], b as [y|]; simpl; intros H; try discriminate.
  - apply String.eqb_eq in H. congruence.
  - reflexivity.
Qed.

Lemma strip_prefix_app (p r : string) : Js.strip_prefix p (p ++ r) = Some r.
Proof.
  induction p as [|a p IH]; simpl; [reflexivity|].
  rewrite Ascii.eqb_refl. exact IH.
Qed.

(** Removing the first occurrence of [p] from a string that starts with
    [p] removes that prefix. *)
Lemma replace_first_prefix (p r : string) : Js.replace_first p (p ++ r) = r.
Proof.
  destruct (p ++ r) as [|c s] eqn:E; simpl.
  - rewrite <- E, strip_prefix_app. reflexivity.
  - rewrite <- E, strip_prefix_app. reflexivity.
Qed.

Lemma string_app_assoc (a b c : string) : (a ++ b) ++ c = a ++ (b ++ c).
Proof. induction a as [|x a IH]; simpl; [reflexivity | rewrite IH; reflexivity]. Qed.

Lemma string_app_nil_r (a : string) : a ++ "" = a.
Proof. induction a as [|x a IH]; simpl; [reflexivity | rewrite IH; reflexivity]. Qed.

Lemma string_app_inv_head (p a b : string) : p ++ a = p ++ b -> a = b.
Proof.
  induction p as [|x p IH]; simpl; intros H; [exact H|].
  injection H as H. apply IH. exact H.
Qed.

(** ** Configuration resolution: the frame of [initAwsGlobals] *)

Lemma bind_run {A B : Type} (c : M A) (k : A -> M B) (s : Service) :
  bind c k s =
  match c s with
  | (Ok a, s') => k a s'
  | (Throw e, s') => (Throw e, s')
  end.
Proof. reflexivity. Qed.

Lemma bind_get {B : Type} (k : Service -> M B) (s : Service) :
  bind get k s = k s s.
Proof. reflexivity. Qed.

Lemma bind_modify {B : Type} (f : Service -> Service) (k : unit -> M B)
  (s : Service) : bind (modify f) k s = k tt (f s).
Proof. reflexivity. Qed.

Lemma bind_ret {A B : Type} (a : A) (k : A -> M B) (s : Service) :
  bind (ret a) k s = k a s.
Proof. reflexivity. Qed.


Lemma evolves_field (f : Service -> Service) (s : Service) :
  options (f s) = options s -> trace (f s) = trace s -> evolves s (f s).
Proof.
  intros O T. split; [exact O|]. exists []. split; [exact T | reflexivity].
Qed.

Lemma Holds_quiet_evolves {A : Type} (c : M A) :
  Holds quiet c -> Holds evolves c.
Proof. intros H s. apply quiet_evolves. apply H. Qed.

Ltac evolves_frame :=
  repeat first
    [ apply Holds_modify; intros ?; apply evolves_field; reflexivity
    | progress frame evolves_refl evolves_trans ].

Section Resolution.

Variable env : Env.

Lemma setDefaults_evolves (a b : option string) : Holds evolves (setDefaults a b).
Proof. unfold setDefaults. evolves_frame. Qed.

Lemma setDefaults_run (a b : option string) (s : Service) :
  exists s',
    setDefaults a b s = (Ok tt, s') /\
    bucketName_ s' = bucketName_ s /\
    baseUrl_ s' =
      Some (protocol_ (options s) ++ "://" ++
            (if Js.truthy b then Js.tmpl b
             else Js.tmpl (bucketName_ s) ++ s3_suffix)) /\
    s3Origin_ s' =
      (if Js.truthy a
       then Some (Origin.mk (Some "")
                    (Some (Js.tmpl (bucketName_ s) ++ s3_suffix)) a)
       else None) /\
    cacheBehavior_ s' = None.
Proof.
  unfold setDefaults, bind, get, modify, ret.
  destruct (Js.truthy b), (Js.truthy a); simpl;
    eexists; repeat split; reflexivity.
Qed.

Lemma setDefaults_ok (a b : option string) (s : Service) :
  fst (setDefaults a b s) = Ok tt.
Proof.
  destruct (setDefaults_run a b s) as [s' [E _]]. rewrite E. reflexivity.
Qed.


Lemma initAwsGlobals_evolves (p : Prefs) : Holds evolves (initAwsGlobals env p).
Proof.
  unfold initAwsGlobals.
  apply Holds_bind; [exact evolves_trans | apply Holds_get; exact evolves_refl |].
  intros s. destruct (negb _).
  - apply setDefaults_evolves.
  - apply Holds_try_catch; [exact evolves_trans | | intros e; apply setDefaults_evolves].
    repeat first
      [ apply Holds_quiet_evolves; first
          [ apply getCloudFrontDistribution_quiet
          | apply setS3Origin_quiet
          | apply validateS3BucketName_quiet
          | apply setBaseUrl_quiet
          | apply setCacheBehaviorPathPattern_quiet ]
      | apply Holds_bind; [exact evolves_trans | | intros ?]
      | progress evolves_frame ].
Qed.

Lemma initAwsGlobals_ok (p : Prefs) (s : Service) :
  fst (initAwsGlobals env p s) = Ok tt.
Proof.
  unfold initAwsGlobals. rewrite bind_get.
  destruct (negb _).
  - apply setDefaults_ok.
  - unfold try_catch.
    match goal with
    | |- fst (match ?c with _ => _ end) = _ => destruct c as [[[]|e] s1]
    end.
    + reflexivity.
    + apply setDefaults_ok.
Qed.

(** A run of [initAwsGlobals]: its final state, with what the frame says. *)
Lemma initAwsGlobals_run (p : Prefs) (s : Service) :
  exists s',
    initAwsGlobals env p s = (Ok tt, s') /\
    options s' = options s /\
    grows resolution_event s s'.
Proof.
  pose proof (initAwsGlobals_ok p s) as Hok.
  pose proof (initAwsGlobals_evolves p s) as [Ho Hg].
  destruct (initAwsGlobals env p s) as [r s'] eqn:E. simpl in *. subst r.
  exists s'. auto.
Qed.

End Resolution.

(** ** The resolved cache behavior and the resolved storage origin *)


(** [setCacheBehaviorPathPattern] on a distribution configuration returns a
    cache behavior that targets the storage origin, or else the default
    cache behavior. *)
Lemma setCacheBehaviorPathPattern_result (dc : DistributionConfig.t)
  (pattern : option string) (s : Service) :
  exists cb s',
    setCacheBehaviorPathPattern (Some dc) pattern s = (Ok cb, s') /\
    (CacheBehavior.TargetOriginId cb = s3Origin_Id s \/
     cb = defaultCacheBehavior dc s).
Proof.
  unfold setCacheBehaviorPathPattern.
  rewrite bind_get, bind_run.
  match goal with
  | |- context [match ?c s with _ => _ end] =>
      assert (Hc : exists cb s1, c s = (Ok cb, s1)); [|destruct Hc as [cb [s1 Hc]]; rewrite Hc]
  end.
  { destruct (items_of (DistributionConfig.CacheBehaviors dc)) as [[|c l]|];
      destruct (Js.truthy pattern); try (eexists; eexists; reflexivity).
    destruct (find _ (c :: l)); eexists; eexists; reflexivity. }
  destruct (negb (Js.seq (CacheBehavior.TargetOriginId cb) (s3Origin_Id s))) eqn:E.
  - eexists. eexists. split; [reflexivity|]. right. reflexivity.
  - eexists. eexists. split; [reflexivity|]. left.
    apply seq_true. apply negb_false_iff. exact E.
Qed.


Section ResolvedCacheBehavior.

Variable env : Env.


End ResolvedCacheBehavior.

(** ** C1: the resolver and the target of the resolved cache behavior *)



(** ** C3: the distribution cannot be fetched *)

Lemma getCloudFrontDistribution_state (env : Env) (id : string) (s : Service) :
  snd (getCloudFrontDistribution env id s) =
  with_event (GetDistributionSent id (getDistribution env (trace s) id)) s.
Proof.
  unfold getCloudFrontDistribution. rewrite bind_get.
  unfold bind, send.
  destruct (getDistribution env (trace s) id) as [[r|]|e]; reflexivity.
Qed.

(** C3, as stated, fails: with the domain name preference
    [shop.example.com] and a failing fetch, [initAwsGlobals] leaves the
    bucket's base URL, whereas the branch without a distribution leaves
    [https://shop.example.com] for the same preferences. *)
Lemma fetch_failure_drops_domain_name :
  let p := {| domainName := Some "shop.example.com";
              s3OriginPath := Some "/assets";
              cacheBehaviorPathPattern := None |} in
  let e := Scenario.env Scenario.fetch_fails
             (Resolves (Some tt)) (Resolves (Some tt)) (Resolves tt) in
  fst (getCloudFrontDistribution e "E1" (Scenario.service (Some "E1") p)) =
    Throw (ServiceException "NoSuchDistribution") /\
  fst (initAwsGlobals e p (Scenario.service (Some "E1") p)) = Ok tt /\
  baseUrl_ (snd (initAwsGlobals e p (Scenario.service (Some "E1") p))) =
    Some "https://b.s3.amazonaws.com" /\
  baseUrl_ (snd (initAwsGlobals e p (Scenario.service None p))) =
    Some "https://shop.example.com" /\
  resolved (snd (initAwsGlobals e p (Scenario.service (Some "E1") p))) <>
  resolved (snd (initAwsGlobals e p (Scenario.service None p))).
Proof.
  cbv zeta. split; [reflexivity|]. split; [reflexivity|].
  split; [reflexivity|]. split; [reflexivity|]. discriminate.
Qed.

(** C3 (amended): for every preference triple, if fetching the distribution
    descriptor throws, [initAwsGlobals] completes without propagating the
    error and leaves the base URL [scheme://<bucket>.s3.amazonaws.com]
    whatever the domain name preference, a storage origin synthesized from
    the origin path preference when one is supplied (else none), and no
    cache behavior: the configuration of the branch without a distribution
    for the same preferences with the domain name left out. *)
Theorem fetch_failure_falls_back_to_bucket :
  forall (env : Env) (p : Prefs) (s : Service) (e : Exn),
    Js.truthy (cloudFrontDistributionId_ (options s)) = true ->
    fst (getCloudFrontDistribution env
           (Js.tmpl (cloudFrontDistributionId_ (options s))) s) = Throw e ->
    fst (initAwsGlobals env p s) = Ok tt /\
    resolved (snd (initAwsGlobals env p s)) =
      (Some (protocol_ (options s) ++ "://" ++
             Js.tmpl (bucketName_ s) ++ ".s3.amazonaws.com"),
       (if Js.truthy (s3OriginPath p)
        then Some (Origin.mk (Some "")
                     (Some (Js.tmpl (bucketName_ s) ++ ".s3.amazonaws.com"))
                     (s3OriginPath p))
        else None),
       None) /\
    (forall s0,
        Js.truthy (cloudFrontDistributionId_ (options s0)) = false ->
        protocol_ (options s0) = protocol_ (options s) ->
        bucketName_ s0 = bucketName_ s ->
        resolved (snd (initAwsGlobals env p s)) =
        resolved (snd (initAwsGlobals env
                         {| domainName := None;
                            s3OriginPath := s3OriginPath p;
                            cacheBehaviorPathPattern :=
                              cacheBehaviorPathPattern p |} s0))).
Proof.
  intros env p s e Hid Hfetch.
  split; [apply initAwsGlobals_ok|].
  assert (Hrun : initAwsGlobals env p s =
                 setDefaults (s3OriginPath p) None
                   (with_event
                      (GetDistributionSent
                         (Js.tmpl (cloudFrontDistributionId_ (options s)))
                         (getDistribution env (trace s)
                            (Js.tmpl (cloudFrontDistributionId_ (options s)))))
                      s)).
  { unfold initAwsGlobals. rewrite bind_get, Hid. cbn [negb].
    unfold try_catch. rewrite bind_run.
    pose proof (getCloudFrontDistribution_state env
      (Js.tmpl (cloudFrontDistributionId_ (options s))) s) as Hs.
    destruct (getCloudFrontDistribution env _ s) as [r s1].
    simpl in Hfetch, Hs. subst r s1. reflexivity. }
  rewrite Hrun.
  match goal with
  | |- context [setDefaults ?a ?b ?x] =>
      destruct (setDefaults_run a b x) as [s' [E [Hb [Hu [Ho Hc]]]]]
  end.
  rewrite E. simpl snd. simpl in Hu, Ho.
  split.
  - unfold resolved. rewrite Hu, Ho, Hc. reflexivity.
  - intros s0 Hid0 Hp0 Hb0.
    unfold initAwsGlobals at 1. rewrite bind_get, Hid0. cbn [negb].
    simpl s3OriginPath. simpl domainName.
    destruct (setDefaults_run (s3OriginPath p) None s0)
      as [s0' [E0 [_ [Hu0 [Ho0 Hc0]]]]].
    rewrite E0. simpl snd. simpl in Hu0.
    unfold resolved. rewrite Hu, Ho, Hc, Hu0, Ho0, Hc0, Hp0, Hb0. reflexivity.
Qed.

(** The fetch of Scenario fails; the preferences ask for a domain name and
    an origin path. *)
Lemma fetch_failure_falls_back_to_bucket_witness :
  let p := {| domainName := Some "shop.example.com";
              s3OriginPath := Some "/assets";
              cacheBehaviorPathPattern := None |} in
  let e := Scenario.env Scenario.fetch_fails
             (Resolves (Some tt)) (Resolves (Some tt)) (Resolves tt) in
  let s := Scenario.service (Some "E1") p in
  Js.truthy (cloudFrontDistributionId_ (options s)) = true /\
  fst (getCloudFrontDistribution e "E1" s) =
    Throw (ServiceException "NoSuchDistribution") /\
  fst (initAwsGlobals e p s) = Ok tt /\
  resolved (snd (initAwsGlobals e p s)) =
    (Some "https://b.s3.amazonaws.com",
     Some (Origin.mk (Some "") (Some "b.s3.amazonaws.com") (Some "/assets")),
     None).
Proof.
  cbv zeta.
  split; [reflexivity|]. split; [reflexivity|].
  pose proof (fetch_failure_falls_back_to_bucket
    (Scenario.env Scenario.fetch_fails
       (Resolves (Some tt)) (Resolves (Some tt)) (Resolves tt))
    {| domainName := Some "shop.example.com";
       s3OriginPath := Some "/assets";
       cacheBehaviorPathPattern := None |}
    (Scenario.service (Some "E1")
       {| domainName := Some "shop.example.com";
          s3OriginPath := Some "/assets";
          cacheBehaviorPathPattern := None |})
    (ServiceException "NoSuchDistribution") eq_refl eq_refl) as [H1 [H2 _]].
  split; [exact H1 | exact H2].
Defined.

(** ** C7: a requested domain name that is not an alias *)





(** ** Runs of [invalidateFile] and [uploadFile] *)

Section Uploads.

Variable env : Env.
Variable new_RegExp : string -> option (string -> string).
Variable encodeURI : string -> option string.

(** The codec reads the resolved configuration only. *)
Lemma getUrlFromKey_resolved (key : string) (relative : bool) (s s' : Service) :
  resolved s' = resolved s ->
  getUrlFromKey new_RegExp key relative s' =
  getUrlFromKey new_RegExp key relative s.
Proof.
  unfold resolved. intros H. injection H as Hb Ho Hc.
  unfold getUrlFromKey, s3Origin_OriginPath. rewrite Hb, Ho, Hc. reflexivity.
Qed.

(** The absolute URL is the base URL followed by the relative path. *)
Lemma getUrlFromKey_absolute (key path : string) (s : Service) :
  getUrlFromKey new_RegExp key true s = Ok path ->
  getUrlFromKey new_RegExp key false s = Ok (Js.tmpl (baseUrl_ s) ++ path).
Proof.
  unfold getUrlFromKey.
  match goal with
  | |- match ?r with _ => _ end = _ -> _ => destruct r as [p|e]
  end; intros H; [|discriminate].
  injection H as ->. reflexivity.
Qed.

(** [invalidateFile] never throws; this is the state it leaves. *)
Lemma invalidateFile_run (path : string) (s : Service) :
  invalidateFile env encodeURI path s =
  (Ok tt,
   if negb (Js.truthy (cloudFrontDistributionId_ (options s)))
      || negb (Js.nonempty path)
   then s
   else
     match encodeURI path with
     | None => with_event (invalidation_failed path) s
     | Some encoded =>
         let input := invalidation_of env encoded s in
         let answer := createInvalidation env (trace s) input in
         let sent := with_event (CreateInvalidationSent input answer) s in
         match answer with
         | Resolves _ => sent
         | Rejects _ => with_event (invalidation_failed path) sent
         end
     end).
Proof.
  unfold invalidateFile. rewrite bind_get.
  destruct (negb _ || negb _); [reflexivity|].
  unfold try_catch, send, invalidation_of.
  destruct (encodeURI path) as [encoded|]; [|reflexivity].
  cbv zeta.
  destruct (createInvalidation env (trace s) _) as [[]|e]; reflexivity.
Qed.

Lemma invalidateFile_resolved (path : string) (s : Service) :
  resolved (snd (invalidateFile env encodeURI path s)) = resolved s.
Proof.
  rewrite invalidateFile_run. simpl snd.
  destruct (negb _ || negb _); [reflexivity|].
  destruct (encodeURI path) as [encoded|]; [|reflexivity].
  cbv zeta.
  destruct (createInvalidation env (trace s) _); reflexivity.
Qed.

Lemma invalidateFile_grows (path : string) (s : Service) :
  grows (fun e => is_warning e || is_invalidation e) s
    (snd (invalidateFile env encodeURI path s)).
Proof.
  rewrite invalidateFile_run. simpl snd.
  destruct (negb _ || negb _); [apply grows_refl|].
  destruct (encodeURI path) as [encoded|].
  - cbv zeta.
    destruct (createInvalidation env (trace s) _).
    + apply grows_event. reflexivity.
    + eapply grows_trans; apply grows_event; reflexivity.
  - apply grows_event. reflexivity.
Qed.

(** A run of [uploadFile], step by step. *)
Lemma uploadFile_run (file : option File.t) (isProtected : bool) (s : Service) :
  let params := getPutObjectCommandInput s file isProtected in
  let answer := putObject env (trace s) params in
  let s1 := with_event (PutObjectSent params answer) s in
  uploadFile env new_RegExp encodeURI file isProtected s =
  match answer with
  | Rejects e => (Throw e, s1)
  | Resolves None => (Throw (JsError "File upload failed"), s1)
  | Resolves (Some _) =>
      match getUrlFromKey new_RegExp (PutObjectCommandInput.Key params) true s1
      with
      | Throw e => (Throw e, s1)
      | Ok path =>
          (Ok (FileServiceUploadResult.mk (Js.tmpl (baseUrl_ s) ++ path)),
           snd (invalidateFile env encodeURI path s1))
      end
  end.
Proof.
  cbv zeta. unfold uploadFile. rewrite bind_get, bind_run. unfold send.
  destruct (putObject env (trace s) _) as [[[]|]|e]; try reflexivity.
  cbn [await ret]. unfold lift at 1. rewrite bind_run.
  set (s1 := with_event _ s).
  destruct (getUrlFromKey new_RegExp _ true s1) as [path|e] eqn:E;
    [|reflexivity].
  rewrite bind_run.
  pose proof (invalidateFile_run path s1) as Hi.
  pose proof (invalidateFile_resolved path s1) as Hr.
  destruct (invalidateFile env encodeURI path s1) as [r s2].
  injection Hi as -> _. simpl in Hr. simpl snd.
  unfold lift. rewrite bind_run.
  rewrite (getUrlFromKey_resolved _ _ _ _ Hr).
  rewrite (getUrlFromKey_absolute _ _ _ E). reflexivity.
Qed.

End Uploads.

(** A run of a public method starts with configuration resolution. *)
Lemma upload_run (env : Env) (re : string -> option (string -> string))
  (enc : string -> option string) (file : option File.t) (s : Service) :
  exists s1,
    initAwsGlobals env (own_prefs s) s = (Ok tt, s1) /\
    options s1 = options s /\
    grows resolution_event s s1 /\
    upload env re enc file s = uploadFile env re enc file false s1.
Proof.
  destruct (initAwsGlobals_run env (own_prefs s) s) as [s1 [E [Ho Hg]]].
  exists s1. repeat split; try assumption.
  unfold upload. rewrite bind_get, bind_run, E. reflexivity.
Qed.

Lemma forallb_In {A : Type} (P : A -> bool) (l : list A) (x : A) :
  forallb P l = true -> In x l -> P x = true.
Proof. intros H. rewrite forallb_forall in H. apply H. Qed.

Lemma getKeyFromFile_resolved (file : option File.t) (s s' : Service) :
  resolved s' = resolved s -> getKeyFromFile s' file = getKeyFromFile s file.
Proof.
  unfold resolved. intros H. injection H as _ Ho _.
  unfold getKeyFromFile, s3Origin_OriginPath. rewrite Ho. reflexivity.
Qed.

(** ** C8: the ACL of a put *)

(** C8: the ACL [getPutObjectCommandInput] builds is [private] whenever
    the protected flag is set, whatever the upload options; otherwise it is
    the configured ACL option when one is set (a truthy value: a non-empty
    string), and [public-read] when none is; and the one put [uploadFile]
    sends to the object store carries exactly this input. *)
Theorem put_acl :
  forall (s : Service) (file : option File.t),
    PutObjectCommandInput.ACL (getPutObjectCommandInput s file true)
      = "private" /\
    (forall acl,
        UploadOptions.ACL (uploadOptions_ (options s)) = Some acl ->
        acl <> "" ->
        PutObjectCommandInput.ACL (getPutObjectCommandInput s file false)
          = acl) /\
    (Js.truthy (UploadOptions.ACL (uploadOptions_ (options s))) = false ->
     PutObjectCommandInput.ACL (getPutObjectCommandInput s file false)
       = "public-read") /\
    (forall env re enc isProtected,
        exists answer rest,
          trace (snd (uploadFile env re enc file isProtected s)) =
            (rest ++
             PutObjectSent (getPutObjectCommandInput s file isProtected) answer
             :: trace s)%list /\
          forallb (fun e => negb (is_put e)) rest = true).
Proof.
  intros s file. split; [reflexivity|]. split; [|split].
  - intros acl H Hne. unfold getPutObjectCommandInput. simpl.
    rewrite H. destruct acl; [congruence | reflexivity].
  - intros H. unfold getPutObjectCommandInput. simpl.
    destruct (UploadOptions.ACL (uploadOptions_ (options s))) as [acl|];
      [|reflexivity].
    simpl in H. rewrite H. reflexivity.
  - intros env re enc isProtected.
    exists (putObject env (trace s) (getPutObjectCommandInput s file isProtected)).
    rewrite uploadFile_run.
    destruct (putObject env (trace s) _) as [[[]|]|e];
      try (exists []; split; reflexivity).
    set (s1 := with_event _ s).
    destruct (getUrlFromKey re _ true s1) as [path|e];
      [|exists []; split; reflexivity].
    destruct (invalidateFile_grows env enc path s1) as [new [E F]].
    exists new. split; [exact E|].
    rewrite forallb_forall in *. intros x Hx. specialize (F x Hx).
    destruct x; simpl in *; congruence.
Qed.

(** ** C9: no distribution, no invalidation *)

(** C9: when no CloudFront distribution id is configured, or the path is
    the empty string, [invalidateFile] returns without issuing any
    invalidation request (the state, trace included, is unchanged);
    consequently [upload] on a service with no distribution id records no
    invalidation request at all. *)
Theorem no_distribution_no_invalidation :
  forall (env : Env) (re : string -> option (string -> string))
         (enc : string -> option string) (s : Service),
    (forall path,
        Js.truthy (cloudFrontDistributionId_ (options s)) = false \/ path = "" ->
        invalidateFile env enc path s = (Ok tt, s)) /\
    (forall file,
        Js.truthy (cloudFrontDistributionId_ (options s)) = false ->
        grows (fun e => negb (is_invalidation e)) s
          (snd (upload env re enc file s))).
Proof.
  intros env re enc s. split.
  - intros path H. rewrite invalidateFile_run.
    destruct H as [H| ->].
    + rewrite H. reflexivity.
    + rewrite orb_true_r. reflexivity.
  - intros file Hid.
    destruct (upload_run env re enc file s) as [s1 [_ [Ho [Hg ->]]]].
    apply grows_trans with s1.
    { eapply grows_weaken; [|exact Hg]. intros [] H; try discriminate H; reflexivity. }
    rewrite uploadFile_run.
    set (s2 := with_event _ s1).
    assert (G2 : grows (fun e => negb (is_invalidation e)) s1 s2)
      by (apply grows_event; reflexivity).
    destruct (putObject env (trace s1) _) as [[[]|]|e]; try exact G2.
    destruct (getUrlFromKey re _ true s2) as [path|e]; [|exact G2].
    rewrite invalidateFile_run.
    change (options s2) with (options s1).
    rewrite Ho, Hid. exact G2.
Qed.

(** ** C4: a failing invalidation does not fail the upload *)

(** C4: for every file, if in a run of [upload] the object store's put
    reported a successful result and the CDN invalidation request that
    followed threw, then [upload] returns successfully, with the absolute
    URL [getUrlFromKey] computes for the file's key. *)
Theorem upload_survives_invalidation_failure :
  forall (env : Env) (re : string -> option (string -> string))
         (enc : string -> option string) (file : option File.t)
         (s s' : Service) (result : Res FileServiceUploadResult.t)
         (new : list Event),
    upload env re enc file s = (result, s') ->
    trace s' = (new ++ trace s)%list ->
    (exists input, In (PutObjectSent input (Resolves (Some tt))) new) ->
    (exists input e, In (CreateInvalidationSent input (Rejects e)) new) ->
    exists url,
      result = Ok (FileServiceUploadResult.mk url) /\
      getUrlFromKey re (getKeyFromFile s' file) false s' = Ok url.
Proof.
  intros env re enc file s s' result new Hrun Htrace [pin Hput] [cin [ce Hinv]].
  destruct (upload_run env re enc file s) as [s1 [_ [Ho [[new1 [E1 F1]] Hu]]]].
  rewrite Hu, uploadFile_run in Hrun.
  set (params := getPutObjectCommandInput s1 file false) in *.
  set (answer := putObject env (trace s1) params) in *.
  set (s2 := with_event (PutObjectSent params answer) s1) in *.
  assert (T2 : trace s2 = (PutObjectSent params answer :: new1 ++ trace s)%list)
    by (unfold s2; simpl; rewrite E1; reflexivity).
  assert (early : s' = s2 -> False).
  { intros ->. rewrite T2 in Htrace.
    rewrite app_comm_cons in Htrace. apply app_inv_tail in Htrace. subst new.
    destruct Hinv as [Hinv|Hinv]; [discriminate Hinv|].
    apply (forallb_In _ _ _ F1) in Hinv. discriminate Hinv. }
  destruct answer as [[[]|]|e] eqn:Ea.
  - destruct (getUrlFromKey re (PutObjectCommandInput.Key params) true s2)
      as [path|e] eqn:Eu.
    + injection Hrun as <- <-.
      exists (Js.tmpl (baseUrl_ s1) ++ path). split; [reflexivity|].
      pose proof (invalidateFile_resolved env enc path s2) as Hr.
      assert (Hr1 : resolved (snd (invalidateFile env enc path s2)) = resolved s1)
        by (rewrite Hr; reflexivity).
      rewrite (getKeyFromFile_resolved _ _ _ Hr1).
      rewrite (getUrlFromKey_resolved _ _ _ _ _ Hr).
      apply (getUrlFromKey_absolute re _ _ s2). exact Eu.
    + injection Hrun as _ <-. exfalso. apply early. reflexivity.
  - injection Hrun as _ <-. exfalso. apply early. reflexivity.
  - injection Hrun as _ <-. exfalso. apply early. reflexivity.
Qed.

(** The distribution of Scenario, whose default cache behavior serves the
    bucket; the put succeeds and the invalidation is rejected. *)
Lemma upload_survives_invalidation_failure_witness :
  let e := Scenario.env
             (Scenario.fetched
                (Scenario.distribution (Some "d111.cloudfront.net")
                   ["cdn.example.com"] "media"))
             (Resolves (Some tt)) (Resolves (Some tt))
             (Rejects (ServiceException "AccessDenied")) in
  let s := Scenario.service (Some "E1") Scenario.no_prefs in
  let file := Some (File.mk (Some "a.png") (Some "/tmp/a.png")) in
  let run := upload e Scenario.anchored_literal_RegExp
               Scenario.encodeURI_unreserved file s in
  In (PutObjectSent (getPutObjectCommandInput (snd run) file false)
        (Resolves (Some tt))) (trace (snd run)) /\
  In (CreateInvalidationSent
        (CreateInvalidation.mk "E1" ["/a.png"] 0)
        (Rejects (ServiceException "AccessDenied"))) (trace (snd run)) /\
  fst run = Ok (FileServiceUploadResult.mk "https://d111.cloudfront.net/a.png") /\
  exists url,
    fst run = Ok (FileServiceUploadResult.mk url) /\
    getUrlFromKey Scenario.anchored_literal_RegExp
      (getKeyFromFile (snd run) file) false (snd run) = Ok url.
Proof.
  intros e s file run.
  assert (Hput :
    In (PutObjectSent (getPutObjectCommandInput (snd run) file false)
          (Resolves (Some tt))) (trace (snd run))).
  { vm_compute. right. right. left. reflexivity. }
  assert (Hinv :
    In (CreateInvalidationSent
          (CreateInvalidation.mk "E1" ["/a.png"] 0)
          (Rejects (ServiceException "AccessDenied"))) (trace (snd run))).
  { vm_compute. right. left. reflexivity. }
  split; [exact Hput|]. split; [exact Hinv|]. split; [reflexivity|].
  exact (upload_survives_invalidation_failure
           e Scenario.anchored_literal_RegExp Scenario.encodeURI_unreserved
           file s (snd run) (fst run) (trace (snd run))
           (surjective_pairing run) (eq_sym (app_nil_r (trace (snd run))))
           (ex_intro
              (fun input =>
                 In (PutObjectSent input (Resolves (Some tt)))
                    (trace (snd run)))
              _ Hput)
           (ex_intro
              (fun input =>
                 exists e0,
                   In (CreateInvalidationSent input (Rejects e0))
                      (trace (snd run)))
              _
              (ex_intro
                 (fun e0 =>
                    In (CreateInvalidationSent
                          (CreateInvalidation.mk "E1" ["/a.png"] 0)
                          (Rejects e0))
                       (trace (snd run)))
                 _ Hinv))).
Defined.

(** ** C5: deletion *)

(** C5: for every file key, when the object-store delete reports no
    result, [removeFile], and [delete] through it, throws the error
    [File deletion failed]; and no run of either, successful or not,
    records an invalidation request. *)
Theorem delete_fails_without_result_and_never_invalidates :
  forall (env : Env) (file : DeleteFileType.t) (s : Service),
    (deleteObject env (trace s) (bucketName_ s) (DeleteFileType.fileKey file)
       = Resolves None ->
     fst (removeFile env (DeleteFileType.fileKey file) s)
       = Throw (JsError "File deletion failed")) /\
    grows (fun e => negb (is_invalidation e)) s
      (snd (removeFile env (DeleteFileType.fileKey file) s)) /\
    (let s1 := snd (initAwsGlobals env (own_prefs s) s) in
     deleteObject env (trace s1) (bucketName_ s1) (DeleteFileType.fileKey file)
       = Resolves None ->
     fst (delete env file s) = Throw (JsError "File deletion failed")) /\
    grows (fun e => negb (is_invalidation e)) s (snd (delete env file s)).
Proof.
  intros env file s.
  assert (Hremove : forall s0,
    (deleteObject env (trace s0) (bucketName_ s0) (DeleteFileType.fileKey file)
       = Resolves None ->
     fst (removeFile env (DeleteFileType.fileKey file) s0)
       = Throw (JsError "File deletion failed")) /\
    grows (fun e => negb (is_invalidation e)) s0
      (snd (removeFile env (DeleteFileType.fileKey file) s0))).
  { intros s0. unfold removeFile. rewrite bind_get, bind_run. unfold send.
    split.
    - intros ->. reflexivity.
    - destruct (deleteObject env (trace s0) _ _) as [[[]|]|e]; simpl;
        apply grows_event; reflexivity. }
  split; [apply Hremove|]. split; [apply Hremove|].
  destruct (initAwsGlobals_run env (own_prefs s) s) as [s1 [E [Ho Hg]]].
  assert (Hd : delete env file s =
               removeFile env (DeleteFileType.fileKey file) s1).
  { unfold delete. rewrite bind_get, bind_run, E. reflexivity. }
  rewrite Hd, E. simpl snd. split; [apply Hremove|].
  apply grows_trans with s1; [|apply Hremove].
  eapply grows_weaken; [|exact Hg].
  intros [] H; try discriminate H; reflexivity.
Qed.

(** ** C6: keys and URLs without a distribution *)

(** C6: when no distribution id is configured and the origin path
    preference is [/assets] (no domain name preference), the key for the
    logical name [a.png] is [assets/a.png], and the absolute URL of that key
    is [<scheme>://<bucket>.s3.amazonaws.com/assets/a.png]: no cache
    behavior is resolved, so nothing is stripped. *)
Theorem no_distribution_assets_key_and_url :
  forall (env : Env) (re : string -> option (string -> string))
         (pattern path : option string) (s : Service),
    Js.truthy (cloudFrontDistributionId_ (options s)) = false ->
    let s' := snd (initAwsGlobals env
                     {| domainName := None;
                        s3OriginPath := Some "/assets";
                        cacheBehaviorPathPattern := pattern |} s) in
    cacheBehavior_ s' = None /\
    getKeyFromFile s' (Some (File.mk (Some "a.png") path)) = "assets/a.png" /\
    getUrlFromKey re "assets/a.png" false s' =
      Ok (protocol_ (options s) ++ "://" ++ Js.tmpl (bucketName_ s) ++
          ".s3.amazonaws.com/assets/a.png").
Proof.
  intros env re pattern path s Hid. cbv zeta.
  unfold initAwsGlobals. rewrite bind_get, Hid. cbn [negb].
  cbn [s3OriginPath domainName].
  destruct (setDefaults_run (Some "/assets") None s)
    as [s' [E [_ [Hu [Ho Hc]]]]].
  rewrite E. simpl snd. cbn in Hu, Ho.
  split; [exact Hc|]. split.
  - unfold getKeyFromFile, s3Origin_OriginPath. rewrite Ho. reflexivity.
  - unfold getUrlFromKey. rewrite Hc, Hu. cbn [Js.tmpl]. f_equal.
    rewrite string_app_assoc. simpl. rewrite string_app_assoc. reflexivity.
Qed.

(** Bucket [b] over https, no distribution. *)
Lemma no_distribution_assets_key_and_url_witness :
  let e := Scenario.env Scenario.fetch_fails
             (Resolves (Some tt)) (Resolves (Some tt)) (Resolves tt) in
  let p := {| domainName := None; s3OriginPath := Some "/assets";
              cacheBehaviorPathPattern := None |} in
  let s' := snd (initAwsGlobals e p (Scenario.service None p)) in
  Js.truthy (cloudFrontDistributionId_ (options (Scenario.service None p)))
    = false /\
  getKeyFromFile s' (Some (File.mk (Some "a.png") None)) = "assets/a.png" /\
  getUrlFromKey Scenario.anchored_literal_RegExp "assets/a.png" false s' =
    Ok "https://b.s3.amazonaws.com/assets/a.png".
Proof.
  cbv zeta. split; [reflexivity|].
  exact (proj2 (no_distribution_assets_key_and_url
           (Scenario.env Scenario.fetch_fails
              (Resolves (Some tt)) (Resolves (Some tt)) (Resolves tt))
           Scenario.anchored_literal_RegExp None None
           (Scenario.service None
              {| domainName := None; s3OriginPath := Some "/assets";
                 cacheBehaviorPathPattern := None |})
           eq_refl)).
Defined.

(** ** C2: key to URL and back (s3.ts) *)

Lemma anchored_literal_RegExp_literal_prefix :
  RegExp_literal_prefix Scenario.anchored_literal_RegExp.
Proof.
  intros text H. simpl. rewrite H. eexists. split; reflexivity.
Qed.

(** C2: with a resolved cache behavior whose path pattern is exactly [*]
    and a resolved storage origin whose origin path is [/assets], for every
    logical file name: the key [getKeyFromFile] builds, turned into an
    absolute URL by [getUrlFromKey] and back into a key by [getKeyFromUrl],
    is the key [getKeyFromFile] built. *)
Theorem key_url_round_trip :
  forall (new_RegExp : string -> option (string -> string))
         (s : Service) (cb : CacheBehavior.t) (o : Origin.t)
         (name : string) (path : option string),
    RegExp_literal_prefix new_RegExp ->
    cacheBehavior_ s = Some cb ->
    CacheBehavior.PathPattern cb = Some "*" ->
    s3Origin_ s = Some o ->
    Origin.OriginPath o = Some "/assets" ->
    let key := getKeyFromFile s (Some (File.mk (Some name) path)) in
    key = "assets/" ++ name /\
    exists url,
      getUrlFromKey new_RegExp key false s = Ok url /\
      url = Js.tmpl (baseUrl_ s) ++ "/" ++ name /\
      getKeyFromUrl url s = key.
Proof.
  intros new_RegExp s cb o name path Hre Hcb Hpat Ho Hpath. cbv zeta.
  assert (Hkey : getKeyFromFile s (Some (File.mk (Some name) path))
                 = "assets/" ++ name).
  { unfold getKeyFromFile, s3Origin_OriginPath. rewrite Ho, Hpath. reflexivity. }
  rewrite Hkey. split; [reflexivity|].
  destruct (Hre "/assets" eq_refl) as [searchValue [Hnew Hreplace]].
  exists (Js.tmpl (baseUrl_ s) ++ "/" ++ name). split; [|split].
  - unfold getUrlFromKey, s3Origin_OriginPath.
    rewrite Hcb, Ho, Hpath, Hpat. cbn [Js.nonempty Js.seq].
    rewrite Hnew, String.eqb_refl, Hreplace.
    change ("/" ++ "assets/" ++ name) with ("/assets" ++ "/" ++ name).
    rewrite strip_prefix_app. reflexivity.
  - reflexivity.
  - unfold getKeyFromUrl, s3Origin_OriginPath.
    rewrite Hcb, Ho, Hpath, Hpat, replace_first_prefix. reflexivity.
Qed.

(** The configuration [initAwsGlobals] resolves for the distribution of
    Scenario when its default cache behavior serves the bucket. *)
Lemma key_url_round_trip_witness :
  let e := Scenario.env
             (Scenario.fetched
                (Scenario.distribution (Some "d111.cloudfront.net")
                   ["cdn.example.com"] "media"))
             (Resolves (Some tt)) (Resolves (Some tt)) (Resolves tt) in
  let s := snd (initAwsGlobals e Scenario.no_prefs
                  (Scenario.service (Some "E1") Scenario.no_prefs)) in
  let key := getKeyFromFile s (Some (File.mk (Some "a.png") None)) in
  cacheBehavior_ s =
    Some (CacheBehavior.mk (Some "*") (Some "media") (Some "allow-all")) /\
  s3Origin_ s = Some Scenario.media_origin /\
  key = "assets/a.png" /\
  exists url,
    getUrlFromKey Scenario.anchored_literal_RegExp key false s = Ok url /\
    url = "https://d111.cloudfront.net/a.png" /\
    getKeyFromUrl url s = key.
Proof.
  intros e s key.
  split; [reflexivity|]. split; [reflexivity|].
  exact (key_url_round_trip Scenario.anchored_literal_RegExp s
           (CacheBehavior.mk (Some "*") (Some "media") (Some "allow-all"))
           Scenario.media_origin "a.png" None
           anchored_literal_RegExp_literal_prefix
           eq_refl eq_refl eq_refl eq_refl).
Defined.

(** ** C10: the key of a presigned download URL *)

Lemma split_nonempty (sep : ascii) (s : string) : Js.split sep s <> [].
Proof.
  destruct s as [|c r]; simpl; [discriminate|].
  destruct (Ascii.eqb c sep); [discriminate|].
  destruct (Js.split sep r); discriminate.
Qed.

(** A string without the separator is its own single segment. *)
Lemma split_no_sep (sep : ascii) (s : string) :
  Js.has_char sep s = false -> Js.split sep s = [s].
Proof.
  induction s as [|c r IH]; simpl; intros H; [reflexivity|].
  apply orb_false_iff in H. destruct H as [Hc Hr].
  rewrite Hc, (IH Hr). reflexivity.
Qed.

(** The segments of [a ++ sep ++ b] are those of [a], then those of [b]. *)
Lemma split_app_sep (sep : ascii) (a b : string) :
  Js.split sep (a ++ String sep b) = (Js.split sep a ++ Js.split sep b)%list.
Proof.
  induction a as [|c a IH]; simpl.
  - rewrite Ascii.eqb_refl. reflexivity.
  - destruct (Ascii.eqb c sep).
    + rewrite IH. reflexivity.
    + rewrite IH. pose proof (split_nonempty sep a) as Hne.
      destruct (Js.split sep a) as [|h t]; [congruence | reflexivity].
Qed.

(** No segment contains the separator. *)
Lemma split_segments (sep : ascii) (s : string) :
  Forall (fun segment => Js.has_char sep segment = false) (Js.split sep s).
Proof.
  induction s as [|c r IH]; simpl.
  - constructor; [reflexivity | constructor].
  - destruct (Ascii.eqb c sep) eqn:E.
    + constructor; [reflexivity | exact IH].
    + pose proof (split_nonempty sep r) as Hne.
      destruct (Js.split sep r) as [|h t]; [congruence|].
      inversion IH as [|? ? Hh Ht]; subst.
      constructor; [|exact Ht]. simpl. rewrite E, Hh. reflexivity.
Qed.

Lemma at_last_app {A : Type} (l1 l2 : list A) :
  l2 <> [] -> Js.at_last (l1 ++ l2)%list = Js.at_last l2.
Proof.
  intros Hne. induction l1 as [|x l1 IH]; [reflexivity|].
  simpl. destruct (l1 ++ l2)%list as [|y l] eqn:E.
  - destruct l1; [simpl in E; congruence | discriminate E].
  - exact IH.
Qed.

Lemma at_last_In {A : Type} (l : list A) (x : A) :
  Js.at_last l = Some x -> In x l.
Proof.
  induction l as [|y l IH]; simpl; [discriminate|].
  destruct l as [|z l].
  - intros H. injection H as ->. left. reflexivity.
  - intros H. right. apply IH. exact H.
Qed.

Lemma at_last_some {A : Type} (l : list A) :
  l <> [] -> exists x, Js.at_last l = Some x.
Proof.
  induction l as [|y l IH]; [congruence|]. intros _.
  destruct l as [|z l]; [eexists; reflexivity|].
  apply IH. discriminate.
Qed.

(** [fileKey.split('/').at(-1)] is a string without a slash. *)
Lemma last_segment (s : string) :
  exists segment,
    Js.at_last (Js.split "/" s) = Some segment /\
    Js.has_char "/" segment = false.
Proof.
  destruct (at_last_some _ (split_nonempty "/" s)) as [segment H].
  exists segment. split; [exact H|].
  pose proof (split_segments "/" s) as F. rewrite Forall_forall in F.
  apply F. apply at_last_In. exact H.
Qed.

(** The last segment of [a ++ "/" ++ segment] and of [segment] itself is
    [segment], when [segment] has no slash. *)
Lemma last_segment_after_slash (a segment : string) :
  Js.has_char "/" segment = false ->
  Js.at_last (Js.split "/" (a ++ String "/" segment)) = Some segment.
Proof.
  intros H. rewrite split_app_sep, at_last_app by apply split_nonempty.
  rewrite (split_no_sep _ _ H). reflexivity.
Qed.

Lemma getKeyFromFile_prefix (s : Service) (name : string) (path : option string) :
  getKeyFromFile s (Some (File.mk (Some name) path)) = key_prefix s ++ name.
Proof.
  unfold key_prefix, getKeyFromFile. cbn [File.originalname Js.tmpl].
  rewrite string_app_nil_r. reflexivity.
Qed.

(** The prefix is empty or ends with a slash. *)
Lemma key_prefix_shape (s : Service) :
  key_prefix s = "" \/ exists a, key_prefix s = a ++ "/".
Proof.
  unfold key_prefix, getKeyFromFile. cbn [File.originalname Js.tmpl].
  rewrite string_app_nil_r.
  destruct (s3Origin_OriginPath s) as [p|]; [|left; reflexivity].
  destruct (Js.nonempty p); [|left; reflexivity].
  right. eexists. reflexivity.
Qed.

Lemma last_segment_with_prefix (s : Service) (segment : string) :
  Js.has_char "/" segment = false ->
  Js.at_last (Js.split "/" (key_prefix s ++ segment)) = Some segment.
Proof.
  intros H. destruct (key_prefix_shape s) as [E|[a E]]; rewrite E.
  - simpl. rewrite (split_no_sep _ _ H). reflexivity.
  - rewrite string_app_assoc. apply last_segment_after_slash. exact H.
Qed.

(** The prefix of a key, read from the resolved origin path. *)
Lemma key_prefix_origin_path (s : Service) :
  key_prefix s =
  match s3Origin_OriginPath s with
  | Some originPath =>
      if Js.nonempty originPath
      then Js.strip_leading_slash originPath ++ "/"
      else ""
  | None => ""
  end.
Proof.
  unfold key_prefix, getKeyFromFile. cbn [File.originalname Js.tmpl].
  apply string_app_nil_r.
Qed.

(** C10: [getPresignedDownloadUrl] signs a key built from the last
    [/]-separated segment of the supplied [fileKey] only, prefixed with the
    resolved origin path by [getKeyFromFile]: the key is the origin-path
    prefix followed by that segment, where the prefix is the [OriginPath]
    of the resolved storage origin without its leading slash and followed
    by a slash, or empty when no origin path is resolved.  Every signing
    request of a run is for that key (S3 signer) or for the URL of that key
    (CloudFront signer), and without a distribution id the S3 signer is
    asked for it.  Hence the signed key equals [fileKey] exactly when
    [fileKey] is the origin-path prefix followed by a single segment, and
    differs from [fileKey] whenever the part of [fileKey] after the
    origin-path prefix contains a slash. *)
Theorem presigned_download_key :
  forall (env : Env) (re : string -> option (string -> string))
         (iso : Z -> option string) (fileData : GetUploadedFileType.t)
         (s : Service),
    let fileKey := GetUploadedFileType.fileKey fileData in
    let s1 := snd (initAwsGlobals env (own_prefs s) s) in
    let s' := snd (getPresignedDownloadUrl env re iso fileData s) in
    let prefix :=
      match s3Origin_OriginPath s1 with
      | Some originPath =>
          if Js.nonempty originPath
          then Js.strip_leading_slash originPath ++ "/"
          else ""
      | None => ""
      end in
    exists segment,
      Js.at_last (Js.split "/" fileKey) = Some segment /\
      let key := getKeyFromFile s1 (Some (File.mk (Some segment) None)) in
      key = prefix ++ segment /\
      (forall ev,
          In ev (trace s') ->
          In ev (trace s1) \/
          match ev with
          | S3SignRequested input _ _ => PutObjectCommandInput.Key input = key
          | CloudFrontSignRequested input _ =>
              getUrlFromKey re key false s1 = Ok (CloudFrontSign.url input)
          | _ => False
          end) /\
      (Js.truthy (cloudFrontDistributionId_ (options s)) = false ->
       exists input answer,
         trace s' =
           S3SignRequested input (downloadUrlDuration_ (options s)) answer
           :: trace s1 /\
         PutObjectCommandInput.Key input = key) /\
      (key = fileKey <->
       exists single,
         Js.has_char "/" single = false /\
         fileKey = prefix ++ single) /\
      (forall rest,
          fileKey = prefix ++ rest ->
          Js.has_char "/" rest = true ->
          key <> fileKey).
Proof.
  intros env re iso fileData s. cbv zeta.
  destruct (last_segment (GetUploadedFileType.fileKey fileData))
    as [segment [Hseg Hno]].
  exists segment. split; [exact Hseg|].
  destruct (initAwsGlobals_run env (own_prefs s) s) as [s1 [E [Ho _]]].
  rewrite E. change (snd (Ok tt, s1)) with s1.
  rewrite <- (key_prefix_origin_path s1).
  set (key := getKeyFromFile s1 (Some (File.mk (Some segment) None))).
  set (params :=
         getPutObjectCommandInput s1 (Some (File.mk (Some segment) None)) false).
  assert (Hkey : PutObjectCommandInput.Key params = key) by reflexivity.
  assert (Hrun : getPresignedDownloadUrl env re iso fileData s =
    if negb (Js.truthy (cloudFrontDistributionId_ (options s))) then
      send (S3SignRequested params (downloadUrlDuration_ (options s)))
        (getS3SignedUrl env (trace s1) params
           (downloadUrlDuration_ (options s))) s1
    else
      match getUrlFromKey re key false s1 with
      | Throw e => (Throw e, s1)
      | Ok url =>
          match
            match downloadUrlDuration_ (options s) with
            | None => None
            | Some duration =>
                iso (Date_now env (trace s1) + duration * 1000)%Z
            end
          with
          | None => (Throw RangeError, s1)
          | Some dateLessThan =>
              send
                (CloudFrontSignRequested
                   (CloudFrontSign.mk url (cloudFrontKeyPairId_ (options s))
                      dateLessThan (cloudFrontKeyPrivateKey_ (options s))))
                (getCloudFrontSignedUrl env (trace s1)
                   (CloudFrontSign.mk url (cloudFrontKeyPairId_ (options s))
                      dateLessThan (cloudFrontKeyPrivateKey_ (options s))))
                s1
          end
      end).
  { unfold getPresignedDownloadUrl.
    rewrite bind_get, bind_run, E, bind_get, Hseg, Ho. cbv zeta.
    fold params. rewrite Hkey.
    destruct (negb _); [reflexivity|].
    unfold lift at 1. rewrite bind_run.
    destruct (getUrlFromKey re key false s1) as [url|e]; [|reflexivity].
    rewrite bind_run.
    destruct (downloadUrlDuration_ (options s)) as [duration|]; [|reflexivity].
    destruct (iso _) as [dateLessThan|]; reflexivity. }
  rewrite Hrun. clear Hrun.
  assert (Hpre : key = key_prefix s1 ++ segment)
    by apply getKeyFromFile_prefix.
  split; [exact Hpre|]. split; [|split; [|split]].
  - intros ev.
    destruct (negb _).
    + unfold send. destruct (getS3SignedUrl env _ _ _); simpl;
        (intros [<-|H]; [right; exact Hkey | left; exact H]).
    + destruct (getUrlFromKey re key false s1) as [url|e]; [|simpl; auto].
      destruct (match downloadUrlDuration_ (options s) with
                | Some duration =>
                    iso (Date_now env (trace s1) + duration * 1000)%Z
                | None => None
                end) as [dateLessThan|]; [|simpl; auto].
      unfold send. destruct (getCloudFrontSignedUrl env _ _); simpl;
        (intros [<-|H]; [right; reflexivity | left; exact H]).
  - intros Hid. rewrite Hid. cbn [negb]. unfold send.
    exists params.
    exists (getS3SignedUrl env (trace s1) params
              (downloadUrlDuration_ (options s))).
    destruct (getS3SignedUrl env _ _ _); simpl; split; reflexivity || exact Hkey.
  - rewrite Hpre. split.
    + intros H. exists segment. split; [exact Hno | symmetry; exact H].
    + intros [single [Hsingle Hfile]].
      rewrite Hfile, (last_segment_with_prefix s1 single Hsingle) in Hseg.
      injection Hseg as ->. symmetry. exact Hfile.
  - intros rest Hfile Hrest Heq. rewrite Hpre, Hfile in Heq.
    apply string_app_inv_head in Heq. subst rest. congruence.
Qed.

(** With the distribution of Scenario and the file key [assets/x/a.png],
    the CloudFront signer is asked for the URL of [assets/a.png]: the
    directory [x/] is lost. *)
Example presigned_download_key_nested :
  let e := Scenario.env
             (Scenario.fetched
                (Scenario.distribution (Some "d111.cloudfront.net")
                   ["cdn.example.com"] "media"))
             (Resolves (Some tt)) (Resolves (Some tt)) (Resolves tt) in
  let run := getPresignedDownloadUrl e Scenario.anchored_literal_RegExp
               Scenario.toISOString_epoch
               (GetUploadedFileType.mk "assets/x/a.png")
               (Scenario.service (Some "E1") Scenario.no_prefs) in
  fst run = Ok "https://signed.example/cf" /\
  hd_error (trace (snd run)) =
    Some (CloudFrontSignRequested
            (CloudFrontSign.mk "https://d111.cloudfront.net/a.png"
               (Some "K1") "1970-01-01T01:00:00.000Z" (Some "pem"))
            (Resolves "https://signed.example/cf")).
Proof. split; reflexivity. Qed.

(** Without a distribution and with the origin path preference
    [/assets], the S3 signer is asked for the key [assets/a.png] when the
    file key is [assets/x/a.png], and for [assets/a.png] itself when that
    is the file key. *)
Example presigned_download_key_under_origin_path :
  let e := Scenario.env Scenario.fetch_fails
             (Resolves (Some tt)) (Resolves (Some tt)) (Resolves tt) in
  let p := {| domainName := None; s3OriginPath := Some "/assets";
              cacheBehaviorPathPattern := None |} in
  let signed fileKey :=
    match trace (snd (getPresignedDownloadUrl e
                        Scenario.anchored_literal_RegExp
                        Scenario.toISOString_epoch
                        (GetUploadedFileType.mk fileKey)
                        (Scenario.service None p))) with
    | S3SignRequested input _ _ :: _ => Some (PutObjectCommandInput.Key input)
    | _ => None
    end in
  signed "assets/x/a.png" = Some "assets/a.png" /\
  signed "assets/a.png" = Some "assets/a.png" /\
  signed "a.png" = Some "assets/a.png".
Proof. repeat split; reflexivity. Qed.

(** ** End to end *)

(** Bucket [b], no distribution, https: uploading [photo.png] returns
    [https://b.s3.amazonaws.com/photo.png] and records one put and no
    invalidation. *)
Example upload_photo_without_distribution :
  let e := Scenario.env Scenario.fetch_fails
             (Resolves (Some tt)) (Resolves (Some tt)) (Resolves tt) in
  let run := upload e Scenario.anchored_literal_RegExp
               Scenario.encodeURI_unreserved
               (Some (File.mk (Some "photo.png") None))
               (Scenario.service None Scenario.no_prefs) in
  fst run =
    Ok (FileServiceUploadResult.mk "https://b.s3.amazonaws.com/photo.png") /\
  trace (snd run) =
    [PutObjectSent
       (PutObjectCommandInput.mk (Some "b") "photo.png" PassThrough
          None None None "public-read")
       (Resolves (Some tt))].
Proof. split; reflexivity. Qed.


(** * Further properties of the code *)

(** ** Steps that only log *)

Lemma logs_refl (s : Service) : logs s s.
Proof. repeat split; try reflexivity. apply grows_refl. Qed.

Lemma logs_trans (a b c : Service) : logs a b -> logs b c -> logs a c.
Proof.
  intros [O1 [B1 [R1 [D1 G1]]]] [O2 [B2 [R2 [D2 G2]]]].
  repeat split; try congruence. eapply grows_trans; eassumption.
Qed.

Lemma Holds_logs_warn (m : string) : Holds logs (emit (ConsoleWarn m)).
Proof.
  intros s. repeat split; try reflexivity. apply grows_event. reflexivity.
Qed.

Lemma Holds_logs_error (m : string) : Holds logs (emit (ConsoleError m)).
Proof.
  intros s. repeat split; try reflexivity. apply grows_event. reflexivity.
Qed.

Ltac logs_frame :=
  repeat first
    [ apply Holds_logs_warn
    | apply Holds_logs_error
    | progress frame logs_refl logs_trans ].

Lemma setS3Origin_logs (dc : option DistributionConfig.t) (p : option string) :
  Holds logs (setS3Origin dc p).
Proof. unfold setS3Origin. logs_frame. Qed.

Lemma setBaseUrl_logs (d : option Distribution.t) (dn : option string) :
  Holds logs (setBaseUrl d dn).
Proof. unfold setBaseUrl. logs_frame. Qed.

Lemma setCacheBehaviorPathPattern_logs (dc : option DistributionConfig.t)
  (p : option string) : Holds logs (setCacheBehaviorPathPattern dc p).
Proof. unfold setCacheBehaviorPathPattern. logs_frame. Qed.

(** ** The storage origin [setS3Origin] selects *)

Lemma filter_s3_In (items l : list Origin.t) (o : Origin.t) :
  filter_s3 items = Some l ->
  In o l ->
  In o items /\
  exists d, Origin.DomainName o = Some d /\ Js.endsWith d s3_suffix = true.
Proof.
  revert l. induction items as [|x items IH]; simpl; intros l Hf Hin.
  - injection Hf as <-. destruct Hin.
  - destruct (Origin.DomainName x) as [d|] eqn:Hd; [|discriminate].
    destruct (filter_s3 items) as [rest|]; [|discriminate].
    injection Hf as <-.
    destruct (Js.endsWith d s3_suffix) eqn:He.
    + destruct Hin as [<-|Hin].
      * split; [left; reflexivity | eauto].
      * destruct (IH rest eq_refl Hin) as [H1 H2]. split; [right; exact H1 | exact H2].
    + destruct (IH rest eq_refl Hin) as [H1 H2]. split; [right; exact H1 | exact H2].
Qed.

Lemma default_origin_In (dc : DistributionConfig.t) (l : list Origin.t)
  (o : Origin.t) : default_origin dc l = Some o -> In o l.
Proof.
  unfold default_origin.
  destruct (find _ l) as [x|] eqn:Hfind.
  - intros H. injection H as <-. apply find_some in Hfind. apply Hfind.
  - destruct l as [|x l]; simpl; [discriminate|].
    intros H. injection H as <-. left. reflexivity.
Qed.

Lemma default_origin_some (dc : DistributionConfig.t) (l : list Origin.t) :
  l <> [] -> exists o, default_origin dc l = Some o.
Proof.
  intros Hne. unfold default_origin.
  destruct (find _ l) as [x|]; [eauto|].
  destruct l as [|x l]; [congruence | simpl; eauto].
Qed.

(** A run of [setS3Origin] on a configuration whose origins pass the
    filter. *)
Lemma setS3Origin_run (dc : DistributionConfig.t) (l : list Origin.t)
  (p : option string) (s : Service) :
  s3Origins_of dc = Some l ->
  setS3Origin (Some dc) p s =
  match l with
  | [] => (Ok None, with_event (ConsoleError "Could not find S3 origin") s)
  | _ :: _ =>
      if Js.truthy p then
        match find (fun o => Js.seq (Origin.OriginPath o) p) l with
        | Some found => (Ok (Some found), s)
        | None => (Ok (default_origin dc l), with_event (origin_not_found p) s)
        end
      else (Ok (default_origin dc l), s)
  end.
Proof.
  intros Hl. unfold setS3Origin, s3Origins_of in *. rewrite bind_run.
  assert (Hrun :
    match items_of (DistributionConfig.Origins dc) with
    | Some items =>
        match filter_s3 items with
        | Some l0 => ret l0
        | None => throw TypeError
        end
    | None => ret []
    end s = (Ok l, s)).
  { destruct (items_of (DistributionConfig.Origins dc)) as [items|].
    - rewrite Hl. reflexivity.
    - injection Hl as <-. reflexivity. }
  rewrite Hrun. clear Hrun. fold (default_origin dc l).
  destruct l as [|x l].
  - reflexivity.
  - destruct (default_origin_some dc (x :: l)) as [o Ho]; [discriminate|].
    rewrite Ho. rewrite bind_run.
    destruct (Js.truthy p).
    + destruct (find _ (x :: l)) as [found|]; reflexivity.
    + reflexivity.
Qed.

Lemma setS3Origin_throws (dc : DistributionConfig.t) (p : option string)
  (s : Service) :
  s3Origins_of dc = None ->
  setS3Origin (Some dc) p s = (Throw TypeError, s).
Proof.
  intros Hl. unfold setS3Origin, s3Origins_of in *. rewrite bind_run.
  destruct (items_of (DistributionConfig.Origins dc)) as [items|];
    [|discriminate].
  rewrite Hl. reflexivity.
Qed.

(** X1: whatever the preference, an origin [setS3Origin] returns is one of
    the distribution's origins and its domain name ends with
    [.s3.amazonaws.com]. *)
Theorem setS3Origin_returns_storage_origin :
  forall (dc : DistributionConfig.t) (p : option string) (s s' : Service)
         (o : Origin.t),
    setS3Origin (Some dc) p s = (Ok (Some o), s') ->
    (exists items,
        items_of (DistributionConfig.Origins dc) = Some items /\ In o items) /\
    exists d, Origin.DomainName o = Some d /\ Js.endsWith d s3_suffix = true.
Proof.
  intros dc p s s' o Hrun.
  destruct (s3Origins_of dc) as [l|] eqn:Hl.
  2: { rewrite (setS3Origin_throws dc p s Hl) in Hrun. discriminate. }
  rewrite (setS3Origin_run dc l p s Hl) in Hrun.
  assert (Hin : In o l).
  { destruct l as [|x l]; [discriminate|].
    destruct (Js.truthy p).
    - match type of Hrun with
      | context [find ?f ?xs] => destruct (find f xs) as [found|] eqn:Hfind
      end.
      + injection Hrun as Hfound _. subst found.
        apply find_some in Hfind. apply Hfind.
      + injection Hrun as Ho _. apply (default_origin_In dc). exact Ho.
    - injection Hrun as Ho _. apply (default_origin_In dc). exact Ho. }
  unfold s3Origins_of in Hl.
  destruct (items_of (DistributionConfig.Origins dc)) as [items|].
  - destruct (filter_s3_In items l o Hl Hin) as [H1 H2].
    split; [exists items; auto | exact H2].
  - injection Hl as <-. destruct Hin.
Qed.

(** The distribution of Scenario; the preference [/assets] selects its
    [media] origin. *)
Lemma setS3Origin_returns_storage_origin_witness :
  let dc := DistributionConfig.mk None
              (Some (Items.mk (Some [Scenario.web_origin; Scenario.media_origin])))
              None None in
  let s := Scenario.service (Some "E1") Scenario.no_prefs in
  setS3Origin (Some dc) (Some "/assets") s = (Ok (Some Scenario.media_origin), s) /\
  (exists items,
      items_of (DistributionConfig.Origins dc) = Some items /\
      In Scenario.media_origin items) /\
  exists d,
    Origin.DomainName Scenario.media_origin = Some d /\
    Js.endsWith d s3_suffix = true.
Proof.
  intros dc s. split; [reflexivity|].
  exact (setS3Origin_returns_storage_origin dc (Some "/assets") s s
           Scenario.media_origin eq_refl).
Defined.



(** X3: when an origin path preference is supplied and no storage-eligible
    origin has it, while the distribution has storage-eligible origins,
    [setS3Origin] warns once and keeps the default candidate: the
    storage-eligible origin the default cache behavior targets, or else the
    first storage-eligible origin. *)
Theorem setS3Origin_unmatched_origin_path_keeps_default :
  forall (dc : DistributionConfig.t) (l : list Origin.t) (path : string)
         (s : Service),
    s3Origins_of dc = Some l ->
    l <> [] ->
    path <> "" ->
    (forall o, In o l -> Origin.OriginPath o <> Some path) ->
    exists o,
      default_origin dc l = Some o /\
      In o l /\
      setS3Origin (Some dc) (Some path) s =
        (Ok (Some o), with_event (origin_not_found (Some path)) s).
Proof.
  intros dc l path s Hl Hne Hpath Hnone.
  rewrite (setS3Origin_run dc l (Some path) s Hl).
  destruct (default_origin_some dc l Hne) as [o Ho].
  exists o. split; [exact Ho|]. split; [apply (default_origin_In dc); exact Ho|].
  destruct l as [|x l]; [congruence|].
  destruct path as [|c path]; [congruence|]. cbn [Js.truthy Js.nonempty].
  destruct (find (fun o => Js.seq (Origin.OriginPath o) (Some (String c path)))
              (x :: l)) as [found|] eqn:Hfind.
  - exfalso. apply find_some in Hfind. destruct Hfind as [H1 H2].
    apply seq_true in H2. exact (Hnone found H1 H2).
  - rewrite Ho. reflexivity.
Qed.

(** The preference [/other] matches no origin of the distribution of
    Scenario, whose only storage-eligible origin is [media]. *)
Lemma setS3Origin_unmatched_origin_path_keeps_default_witness :
  let dc := DistributionConfig.mk None
              (Some (Items.mk (Some [Scenario.web_origin; Scenario.media_origin])))
              (Some (DefaultCacheBehavior.mk (Some "web") None)) None in
  let s := Scenario.service (Some "E1") Scenario.no_prefs in
  exists o,
    default_origin dc [Scenario.media_origin] = Some o /\
    In o [Scenario.media_origin] /\
    setS3Origin (Some dc) (Some "/other") s =
      (Ok (Some o), with_event (origin_not_found (Some "/other")) s).
Proof.
  intros dc s.
  exact (setS3Origin_unmatched_origin_path_keeps_default dc
           [Scenario.media_origin] "/other" s eq_refl
           ltac:(discriminate) ltac:(discriminate)
           (fun o Hin =>
              match Hin with
              | or_introl E =>
                  eq_ind Scenario.media_origin
                    (fun x => Origin.OriginPath x <> Some "/other")
                    ltac:(discriminate) o E
              | or_intror F => False_ind _ F
              end)).
Defined.

(** ** The bucket [validateS3BucketName] adopts *)

Lemma seq_true_refl (a : option string) : Js.seq a a = true.
Proof. destruct a as [x|]; simpl; [apply String.eqb_refl | reflexivity]. Qed.

Lemma replace_first_unfold (pat s : string) :
  Js.replace_first pat s =
  match Js.strip_prefix pat s with
  | Some rest => rest
  | None =>
      match s with
      | EmptyString => EmptyString
      | String c s' => String c (Js.replace_first pat s')
      end
  end.
Proof. destruct s; reflexivity. Qed.

Lemma strip_prefix_step (a c : ascii) (p s t : string) :
  Js.strip_prefix (String a p) (String c s ++ t) =
  if Ascii.eqb a c then Js.strip_prefix p (s ++ t) else None.
Proof. reflexivity. Qed.

(** An occurrence of [.s3.amazonaws.com] that starts inside [b], in
    [b ++ ".s3.amazonaws.com"], lies inside [b]: the suffix does not
    overlap itself. *)
Lemma s3_suffix_occurrence (b r : string) :
  b <> "" ->
  Js.strip_prefix s3_suffix (b ++ s3_suffix) = Some r ->
  contains s3_suffix b.
Proof.
  intros Hne H. unfold s3_suffix in *.
  destruct b as [|c b]; [congruence|]. clear Hne.
  rewrite strip_prefix_step in H.
  destruct (Ascii.eqb "." c) eqn:E; [|discriminate H].
  apply Ascii.eqb_eq in E. subst c.
  repeat match type of H with
    | Js.strip_prefix (String _ _) (?x ++ _) = Some _ =>
        destruct x as [|? ?];
        [ vm_compute in H; discriminate H
        | rewrite strip_prefix_step in H;
          match type of H with
          | (if ?t then _ else _) = _ =>
              let E := fresh "E" in
              destruct t eqn:E;
              [apply Ascii.eqb_eq in E; subst | discriminate H]
          end ]
    end.
  eexists "", _. reflexivity.
Qed.

(** Removing the first [.s3.amazonaws.com] from [b.s3.amazonaws.com] gives
    [b] back, when [b] does not contain it. *)
Lemma replace_first_s3_suffix (b : string) :
  ~ contains s3_suffix b ->
  Js.replace_first s3_suffix (b ++ s3_suffix) = b.
Proof.
  induction b as [|c b IH]; intros Hno; [reflexivity|].
  rewrite replace_first_unfold.
  destruct (Js.strip_prefix s3_suffix (String c b ++ s3_suffix)) as [r|] eqn:E.
  - exfalso. apply Hno. apply (s3_suffix_occurrence _ r); [discriminate | exact E].
  - cbn [String.append]. f_equal. apply IH.
    intros [a [d Hd]]. apply Hno. exists (String c a), d. rewrite Hd. reflexivity.
Qed.

Definition bucket_missing : Event :=
  ConsoleWarn
    "S3 bucket name is not provided. Using the bucket name from the CloudFront distribution origin.".

(** A run of [validateS3BucketName] on an origin with a domain name. *)
Lemma validateS3BucketName_run (o : Origin.t) (dom : string) (s : Service) :
  Origin.DomainName o = Some dom ->
  exists s',
    validateS3BucketName (Some o) s = (Ok tt, s') /\
    bucketName_ s' = Some (Js.replace_first s3_suffix dom) /\
    options s' = options s /\
    resolved s' = resolved s /\
    cloudFrontDistribution_ s' = cloudFrontDistribution_ s /\
    grows is_console s s' /\
    (Js.truthy (bucketName_ s) = true ->
     bucketName_ s = Some (Js.replace_first s3_suffix dom) -> s' = s) /\
    (Js.truthy (bucketName_ s) = false ->
     trace s' = bucket_missing :: trace s).
Proof.
  intros Hd. unfold validateS3BucketName. rewrite Hd, bind_get.
  destruct (Js.truthy (bucketName_ s)) eqn:Ht; cbn [negb].
  - destruct (Js.seq (Some (Js.replace_first s3_suffix dom)) (bucketName_ s))
      eqn:Hs; cbn [negb].
    + exists s. apply seq_true in Hs.
      repeat split; auto; try discriminate. apply grows_refl.
    + eexists. split; [reflexivity|]. repeat split; try discriminate.
      * apply grows_event. reflexivity.
      * intros _ Hb. rewrite Hb, seq_true_refl in Hs. discriminate.
  - eexists. split; [reflexivity|]. repeat split; try discriminate.
    apply grows_event. reflexivity.
Qed.

(** X4: [validateS3BucketName] on an origin with a domain name never
    throws and leaves as bucket name the domain name with its first
    [.s3.amazonaws.com] removed, whatever bucket was configured: the
    origin of the distribution wins.  For the domain
    [b.s3.amazonaws.com] of a bucket [b] that does not contain
    [.s3.amazonaws.com] this is [b].  Nothing is logged or changed when the
    configured bucket already is that name. *)
Theorem validateS3BucketName_adopts_origin_bucket :
  forall (o : Origin.t) (b : string) (s : Service),
    Origin.DomainName o = Some (b ++ ".s3.amazonaws.com") ->
    ~ contains ".s3.amazonaws.com" b ->
    exists s',
      validateS3BucketName (Some o) s = (Ok tt, s') /\
      bucketName_ s' = Some b /\
      resolved s' = resolved s /\
      (b <> "" -> bucketName_ s = Some b -> s' = s) /\
      (bucketName_ s <> Some b -> exists m, trace s' = ConsoleWarn m :: trace s).
Proof.
  intros o b s Hd Hno.
  assert (Hb : Js.replace_first s3_suffix (b ++ s3_suffix) = b)
    by (apply replace_first_s3_suffix; exact Hno).
  unfold validateS3BucketName. change ".s3.amazonaws.com" with s3_suffix in Hd.
  rewrite Hd, bind_get, Hb.
  destruct (Js.truthy (bucketName_ s)) eqn:Ht; cbn [negb].
  - destruct (Js.seq (Some b) (bucketName_ s)) eqn:Hs; cbn [negb].
    + apply seq_true in Hs. exists s. repeat split; auto.
      intros Hdiff. congruence.
    + eexists. split; [reflexivity|]. repeat split.
      * intros _ Hsame. rewrite Hsame, seq_true_refl in Hs. discriminate.
      * intros _. eexists. reflexivity.
  - eexists. split; [reflexivity|]. repeat split.
    + intros Hne Hsame. rewrite Hsame in Ht. destruct b; [congruence | discriminate].
    + intros _. eexists. reflexivity.
Qed.

(** The configured bucket [b] and the origin [other.s3.amazonaws.com]. *)
Lemma validateS3BucketName_adopts_origin_bucket_witness :
  let o := Origin.mk (Some "media") (Some "other.s3.amazonaws.com") None in
  let s := Scenario.service (Some "E1") Scenario.no_prefs in
  ~ contains ".s3.amazonaws.com" "other" /\
  exists s',
    validateS3BucketName (Some o) s = (Ok tt, s') /\
    bucketName_ s' = Some "other" /\
    resolved s' = resolved s /\
    ("other" <> "" -> bucketName_ s = Some "other" -> s' = s) /\
    (bucketName_ s <> Some "other" ->
     exists m, trace s' = ConsoleWarn m :: trace s).
Proof.
  intros o s.
  assert (Hno : ~ contains ".s3.amazonaws.com" "other").
  { intros [a [c H]].
    destruct a as [|? [|? [|? [|? [|? [|? a]]]]]]; simpl in H; discriminate H. }
  split; [exact Hno|].
  exact (validateS3BucketName_adopts_origin_bucket o "other" s eq_refl Hno).
Defined.

(** ** Configuration resolution through a fetched distribution *)

Lemma getCloudFrontDistribution_fetched (env : Env) (id : string) (s : Service)
  (d : option Distribution.t) :
  getDistribution env (trace s) id =
    Resolves (Some (GetDistributionCommandOutput.mk d)) ->
  getCloudFrontDistribution env id s =
    (Ok d,
     with_event
       (GetDistributionSent id
          (Resolves (Some (GetDistributionCommandOutput.mk d)))) s).
Proof.
  intros H. unfold getCloudFrontDistribution. rewrite bind_get.
  unfold bind, send. rewrite H. reflexivity.
Qed.

(** X5: when the fetched distribution has no storage-eligible origin,
    [setS3Origin] logs [Could not find S3 origin] and returns nothing,
    [validateS3BucketName] throws on it, and [initAwsGlobals] ends, without
    throwing, in the configuration it leaves when the fetch fails: the
    bucket's base URL whatever the domain name preference, an origin
    synthesized from the origin path preference, and no cache behavior. *)
Theorem initAwsGlobals_without_storage_origin :
  forall (env : Env) (p : Prefs) (s : Service) (d : Distribution.t)
         (dc : DistributionConfig.t),
    Js.truthy (cloudFrontDistributionId_ (options s)) = true ->
    getDistribution env (trace s)
      (Js.tmpl (cloudFrontDistributionId_ (options s))) =
      Resolves (Some (GetDistributionCommandOutput.mk (Some d))) ->
    Distribution.DistributionConfig d = Some dc ->
    s3Origins_of dc = Some [] ->
    exists s',
      initAwsGlobals env p s = (Ok tt, s') /\
      bucketName_ s' = bucketName_ s /\
      resolved s' =
        (Some (protocol_ (options s) ++ "://" ++
               Js.tmpl (bucketName_ s) ++ ".s3.amazonaws.com"),
         (if Js.truthy (s3OriginPath p)
          then Some (Origin.mk (Some "")
                       (Some (Js.tmpl (bucketName_ s) ++ ".s3.amazonaws.com"))
                       (s3OriginPath p))
          else None),
         None) /\
      trace s' =
        ConsoleError "Could not find S3 origin"
        :: GetDistributionSent
             (Js.tmpl (cloudFrontDistributionId_ (options s)))
             (Resolves (Some (GetDistributionCommandOutput.mk (Some d))))
        :: trace s.
Proof.
  intros env p s d dc Hid Hfetch Hdc Hl.
  unfold initAwsGlobals. rewrite bind_get, Hid. cbn [negb].
  unfold try_catch. rewrite bind_run.
  rewrite (getCloudFrontDistribution_fetched _ _ _ _ Hfetch).
  rewrite bind_modify, bind_ret, Hdc, bind_run.
  rewrite (setS3Origin_run dc [] (s3OriginPath p) _ Hl).
  rewrite bind_modify. rewrite bind_run.
  change (validateS3BucketName None) with (@throw unit TypeError).
  unfold throw at 1.
  match goal with
  | |- context [setDefaults ?a ?b ?x] =>
      destruct (setDefaults_run a b x) as [s' [E [Hb [Hu [Ho Hc]]]]];
      assert (Ht : trace (snd (setDefaults a b x)) = trace x)
        by (unfold setDefaults, bind, get, modify, ret;
            destruct (Js.truthy b), (Js.truthy a); reflexivity)
  end.
  rewrite E in *. simpl snd in Ht. simpl in Hu, Ho, Hb.
  exists s'. split; [reflexivity|]. split; [exact Hb|]. split.
  - unfold resolved. rewrite Hu, Ho, Hc. reflexivity.
  - rewrite Ht. reflexivity.
Qed.

(** A distribution whose only origin is the web server. *)
Lemma initAwsGlobals_without_storage_origin_witness :
  let d := Distribution.mk (Some "d111.cloudfront.net")
             (Some (DistributionConfig.mk None
                      (Some (Items.mk (Some [Scenario.web_origin])))
                      (Some (DefaultCacheBehavior.mk (Some "web") None))
                      None)) in
  let e := Scenario.env (Scenario.fetched d)
             (Resolves (Some tt)) (Resolves (Some tt)) (Resolves tt) in
  let p := {| domainName := Some "shop.example.com";
              s3OriginPath := Some "/assets";
              cacheBehaviorPathPattern := None |} in
  exists s',
    initAwsGlobals e p (Scenario.service (Some "E1") p) = (Ok tt, s') /\
    bucketName_ s' = Some "b" /\
    resolved s' =
      (Some "https://b.s3.amazonaws.com",
       Some (Origin.mk (Some "") (Some "b.s3.amazonaws.com") (Some "/assets")),
       None) /\
    trace s' =
      [ConsoleError "Could not find S3 origin";
       GetDistributionSent "E1"
         (Resolves (Some (GetDistributionCommandOutput.mk (Some d))))].
Proof.
  intros d e p.
  exact (initAwsGlobals_without_storage_origin e p
           (Scenario.service (Some "E1") p) d _
           eq_refl eq_refl eq_refl eq_refl).
Defined.

Lemma setS3Origin_some (dc : DistributionConfig.t) (l : list Origin.t)
  (p : option string) (s : Service) :
  s3Origins_of dc = Some l ->
  l <> [] ->
  exists o s',
    setS3Origin (Some dc) p s = (Ok (Some o), s') /\
    In o l /\
    (exists dom, Origin.DomainName o = Some dom) /\
    forall s0, fst (setS3Origin (Some dc) p s0) = Ok (Some o).
Proof.
  intros Hl Hne.
  destruct (default_origin_some dc l Hne) as [o0 Ho0].
  assert (Hdom : forall o, In o l -> exists dom, Origin.DomainName o = Some dom).
  { intros o Hin. unfold s3Origins_of in Hl.
    destruct (items_of (DistributionConfig.Origins dc)) as [items|].
    - destruct (filter_s3_In items l o Hl Hin) as [_ [dom [H _]]]. eauto.
    - injection Hl as <-. destruct Hin. }
  assert (Hshape : forall s0,
    setS3Origin (Some dc) p s0 =
    if Js.truthy p then
      match find (fun o => Js.seq (Origin.OriginPath o) p) l with
      | Some found => (Ok (Some found), s0)
      | None => (Ok (Some o0), with_event (origin_not_found p) s0)
      end
    else (Ok (Some o0), s0)).
  { intros s0. rewrite (setS3Origin_run dc l p s0 Hl), Ho0.
    destruct l; [congruence | reflexivity]. }
  destruct (Js.truthy p).
  - destruct (find (fun o => Js.seq (Origin.OriginPath o) p) l) as [found|]
      eqn:Hfind.
    + apply find_some in Hfind. destruct Hfind as [Hin _].
      exists found. eexists. split; [apply Hshape|].
      split; [exact Hin|]. split; [apply Hdom; exact Hin|].
      intros s0. rewrite Hshape. reflexivity.
    + pose proof (default_origin_In dc l o0 Ho0) as Hin.
      exists o0. eexists. split; [apply Hshape|].
      split; [exact Hin|]. split; [apply Hdom; exact Hin|].
      intros s0. rewrite Hshape. reflexivity.
  - pose proof (default_origin_In dc l o0 Ho0) as Hin.
    exists o0. eexists. split; [apply Hshape|].
    split; [exact Hin|]. split; [apply Hdom; exact Hin|].
    intros s0. rewrite Hshape. reflexivity.
Qed.

Lemma setBaseUrl_ok (d : Distribution.t) (dn : option string) (s : Service) :
  exists b s', setBaseUrl (Some d) dn s = (Ok b, s').
Proof.
  unfold setBaseUrl. rewrite bind_get, bind_run.
  destruct (Js.truthy dn).
  - destruct (match Distribution.DistributionConfig d with
              | Some dc => items_of (DistributionConfig.Aliases dc)
              | None => None
              end) as [[|a l]|]; try (eexists; eexists; reflexivity).
    destruct (negb _); eexists; eexists; reflexivity.
  - eexists; eexists; reflexivity.
Qed.

(** A run of [initAwsGlobals] on a fetched distribution that has a
    storage-eligible origin: every step succeeds, and the resolved fields
    are what the steps returned. *)
Lemma initAwsGlobals_through_distribution (env : Env) (p : Prefs)
  (s : Service) (d : Distribution.t) (dc : DistributionConfig.t)
  (l : list Origin.t) :
  Js.truthy (cloudFrontDistributionId_ (options s)) = true ->
  getDistribution env (trace s)
    (Js.tmpl (cloudFrontDistributionId_ (options s))) =
    Resolves (Some (GetDistributionCommandOutput.mk (Some d))) ->
  Distribution.DistributionConfig d = Some dc ->
  s3Origins_of dc = Some l ->
  l <> [] ->
  exists o dom b cb s',
    initAwsGlobals env p s = (Ok tt, s') /\
    (forall s0, fst (setS3Origin (Some dc) (s3OriginPath p) s0) = Ok (Some o)) /\
    In o l /\
    Origin.DomainName o = Some dom /\
    options s' = options s /\
    cloudFrontDistribution_ s' = Some d /\
    bucketName_ s' = Some (Js.replace_first s3_suffix dom) /\
    resolved s' = (Some b, Some o, Some cb) /\
    (exists sb,
        fst (setBaseUrl (Some d) (domainName p) sb) = Ok b /\
        options sb = options s /\
        bucketName_ sb = Some (Js.replace_first s3_suffix dom)) /\
    (exists sc,
        fst (setCacheBehaviorPathPattern (Some dc) (cacheBehaviorPathPattern p) sc)
          = Ok cb /\
        s3Origin_ sc = Some o) /\
    exists lines,
      trace s' =
        (lines ++
         GetDistributionSent
           (Js.tmpl (cloudFrontDistributionId_ (options s)))
           (Resolves (Some (GetDistributionCommandOutput.mk (Some d))))
         :: trace s)%list /\
      forallb is_console lines = true.
Proof.
  intros Hid Hfetch Hdc Hl Hne.
  unfold initAwsGlobals. rewrite bind_get, Hid. cbn [negb].
  unfold try_catch. rewrite bind_run.
  rewrite (getCloudFrontDistribution_fetched _ _ _ _ Hfetch).
  rewrite bind_modify, bind_ret, Hdc, bind_run.
  set (s1 := with_cloudFrontDistribution (Some d) (with_event _ s)).
  destruct (setS3Origin_some dc l (s3OriginPath p) s1 Hl Hne)
    as [o [s2 [E2 [Hin [[dom Hdom] Hfix]]]]].
  pose proof (setS3Origin_logs (Some dc) (s3OriginPath p) s1) as L2.
  rewrite E2 in L2 |- *. simpl snd in L2.
  rewrite bind_modify, bind_run.
  set (s3 := with_s3Origin (Some o) s2).
  destruct (validateS3BucketName_run o dom s3 Hdom)
    as [s4 [E4 [B4 [O4 [R4 [D4 [G4 _]]]]]]].
  rewrite E4, bind_run.
  destruct (setBaseUrl_ok d (domainName p) s4) as [b [s5 E5]].
  pose proof (setBaseUrl_logs (Some d) (domainName p) s4) as L5.
  rewrite E5 in L5 |- *. simpl snd in L5.
  rewrite bind_modify, bind_run.
  set (s6 := with_baseUrl (Some b) s5).
  destruct (setCacheBehaviorPathPattern_result dc (cacheBehaviorPathPattern p) s6)
    as [cb [s7 [E7 _]]].
  pose proof (setCacheBehaviorPathPattern_logs (Some dc)
                (cacheBehaviorPathPattern p) s6) as L7.
  rewrite E7 in L7 |- *. simpl snd in L7.
  destruct L2 as [O2 [B2 [R2 [D2 [n2 [T2 F2]]]]]].
  destruct L5 as [O5 [B5 [R5 [D5 [n5 [T5 F5]]]]]].
  destruct L7 as [O7 [B7 [R7 [D7 [n7 [T7 F7]]]]]].
  destruct G4 as [n4 [T4 F4]].
  unfold resolved in R2, R4, R5, R7.
  injection R5 as _ RO5 _. injection R4 as _ RO4 _.
  injection R7 as RB7 RO7 _.
  exists o, dom, b, cb. eexists. split; [reflexivity|].
  split; [exact Hfix|]. split; [exact Hin|]. split; [exact Hdom|].
  split.
  { simpl. rewrite O7. unfold s6. simpl. rewrite O5, O4. unfold s3. simpl.
    rewrite O2. reflexivity. }
  split.
  { simpl. rewrite D7. unfold s6. simpl. rewrite D5, D4. unfold s3. simpl.
    rewrite D2. reflexivity. }
  split.
  { simpl. rewrite B7. unfold s6. simpl. rewrite B5. exact B4. }
  split.
  { unfold resolved. simpl. rewrite RB7, RO7. unfold s6. simpl.
    rewrite RO5, RO4. reflexivity. }
  split.
  { exists s4. rewrite E5. split; [reflexivity|]. split; [|exact B4].
    rewrite O4. unfold s3. simpl. rewrite O2. reflexivity. }
  split.
  { exists s6. rewrite E7. split; [reflexivity|]. unfold s6. simpl.
    rewrite RO5, RO4. reflexivity. }
  exists (n7 ++ n5 ++ n4 ++ n2)%list. split.
  - simpl. rewrite T7. unfold s6. simpl. rewrite T5, T4. unfold s3. simpl.
    rewrite T2. unfold s1. simpl. rewrite <- !app_assoc. reflexivity.
  - rewrite !forallb_app, F7, F5, F4, F2. reflexivity.
Qed.

(** X6: whenever the fetch answers with a distribution that has a
    storage-eligible origin, [initAwsGlobals] resolves through the
    distribution and never falls back: it returns normally with a cache
    behavior, the resolved storage origin is one of the distribution's
    storage-eligible origins, and the bucket every later request uses is
    that origin's domain name without [.s3.amazonaws.com], whatever
    bucket was configured; only console lines follow the one fetch. *)
Theorem initAwsGlobals_resolves_through_distribution :
  forall (env : Env) (p : Prefs) (s : Service) (d : Distribution.t)
         (dc : DistributionConfig.t) (l : list Origin.t),
    Js.truthy (cloudFrontDistributionId_ (options s)) = true ->
    getDistribution env (trace s)
      (Js.tmpl (cloudFrontDistributionId_ (options s))) =
      Resolves (Some (GetDistributionCommandOutput.mk (Some d))) ->
    Distribution.DistributionConfig d = Some dc ->
    s3Origins_of dc = Some l ->
    l <> [] ->
    exists o dom cb s',
      initAwsGlobals env p s = (Ok tt, s') /\
      cloudFrontDistribution_ s' = Some d /\
      s3Origin_ s' = Some o /\
      In o l /\
      Origin.DomainName o = Some dom /\
      Js.endsWith dom ".s3.amazonaws.com" = true /\
      bucketName_ s' = Some (Js.replace_first ".s3.amazonaws.com" dom) /\
      cacheBehavior_ s' = Some cb /\
      exists lines,
        trace s' =
          (lines ++
           GetDistributionSent
             (Js.tmpl (cloudFrontDistributionId_ (options s)))
             (Resolves (Some (GetDistributionCommandOutput.mk (Some d))))
           :: trace s)%list /\
        forallb is_console lines = true.
Proof.
  intros env p s d dc l Hid Hfetch Hdc Hl Hne.
  destruct (initAwsGlobals_through_distribution env p s d dc l
              Hid Hfetch Hdc Hl Hne)
    as [o [dom [b [cb [s' [E [_ [Hin [Hdom [_ [Hd [Hb [Hr [_ [_ Ht]]]]]]]]]]]]]]].
  unfold resolved in Hr. injection Hr as _ Ho Hc.
  exists o, dom, cb, s'. repeat (split; [assumption|]).
  split; [|auto].
  unfold s3Origins_of in Hl.
  destruct (items_of (DistributionConfig.Origins dc)) as [items|].
  - destruct (filter_s3_In items l o Hl Hin) as [_ [dom' [H1 H2]]].
    rewrite Hdom in H1. injection H1 as <-. exact H2.
  - injection Hl as <-. destruct Hin.
Qed.

(** The distribution of Scenario and the configured bucket [b]. *)
Lemma initAwsGlobals_resolves_through_distribution_witness :
  let d := Scenario.distribution (Some "d111.cloudfront.net")
             ["cdn.example.com"] "web" in
  let e := Scenario.env (Scenario.fetched d)
             (Resolves (Some tt)) (Resolves (Some tt)) (Resolves tt) in
  let s := Scenario.service (Some "E1") Scenario.no_prefs in
  exists o dom cb s',
    initAwsGlobals e Scenario.no_prefs s = (Ok tt, s') /\
    cloudFrontDistribution_ s' = Some d /\
    s3Origin_ s' = Some o /\
    In o [Scenario.media_origin] /\
    Origin.DomainName o = Some dom /\
    Js.endsWith dom ".s3.amazonaws.com" = true /\
    bucketName_ s' = Some (Js.replace_first ".s3.amazonaws.com" dom) /\
    cacheBehavior_ s' = Some cb /\
    exists lines,
      trace s' =
        (lines ++
         GetDistributionSent "E1"
           (Resolves (Some (GetDistributionCommandOutput.mk (Some d))))
         :: trace s)%list /\
      forallb is_console lines = true.
Proof.
  intros d e s.
  exact (initAwsGlobals_resolves_through_distribution e Scenario.no_prefs s d
           _ [Scenario.media_origin] eq_refl eq_refl eq_refl eq_refl
           ltac:(discriminate)).
Defined.

Lemma setCacheBehaviorPathPattern_default (dc : DistributionConfig.t)
  (dcb : DefaultCacheBehavior.t) (pattern : option string) (s : Service) :
  Js.truthy pattern = false ->
  DistributionConfig.DefaultCacheBehavior dc = Some dcb ->
  DefaultCacheBehavior.TargetOriginId dcb = s3Origin_Id s ->
  setCacheBehaviorPathPattern (Some dc) pattern s =
    (Ok (CacheBehavior.mk (Some "*")
           (DefaultCacheBehavior.TargetOriginId dcb)
           (DefaultCacheBehavior.ViewerProtocolPolicy dcb)), s).
Proof.
  intros Hp Hd Ht. unfold setCacheBehaviorPathPattern.
  rewrite bind_get, bind_run, Hp. unfold defaultCacheBehavior. rewrite Hd.
  destruct (items_of (DistributionConfig.CacheBehaviors dc)) as [[|c l]|];
    cbn [ret CacheBehavior.TargetOriginId]; rewrite Ht, seq_true_refl;
    reflexivity.
Qed.

(** X7: with no preference at all, on a distribution that has a domain
    name and whose default cache behavior targets a storage-eligible origin
    [o], [initAwsGlobals] resolves the base URL [scheme://] followed by
    the distribution's domain name, the storage origin [o], and the default
    cache behavior with pattern [*], whose target is [o]. *)
Theorem initAwsGlobals_default_resolution :
  forall (env : Env) (p : Prefs) (s : Service) (d : Distribution.t)
         (dc : DistributionConfig.t) (l : list Origin.t)
         (dcb : DefaultCacheBehavior.t) (o : Origin.t),
    Js.truthy (cloudFrontDistributionId_ (options s)) = true ->
    getDistribution env (trace s)
      (Js.tmpl (cloudFrontDistributionId_ (options s))) =
      Resolves (Some (GetDistributionCommandOutput.mk (Some d))) ->
    Js.truthy (Distribution.DomainName d) = true ->
    Distribution.DistributionConfig d = Some dc ->
    s3Origins_of dc = Some l ->
    DistributionConfig.DefaultCacheBehavior dc = Some dcb ->
    find (fun x => Js.seq (Origin.Id x) (DefaultCacheBehavior.TargetOriginId dcb))
      l = Some o ->
    Js.truthy (domainName p) = false ->
    Js.truthy (s3OriginPath p) = false ->
    Js.truthy (cacheBehaviorPathPattern p) = false ->
    exists s',
      initAwsGlobals env p s = (Ok tt, s') /\
      resolved s' =
        (Some (protocol_ (options s) ++ "://" ++
               Js.tmpl (Distribution.DomainName d)),
         Some o,
         Some (CacheBehavior.mk (Some "*") (Origin.Id o)
                 (DefaultCacheBehavior.ViewerProtocolPolicy dcb))).
Proof.
  intros env p s d dc l dcb o Hid Hfetch Hdn Hdc Hl Hdcb Hfind Hp1 Hp2 Hp3.
  assert (Hne : l <> []) by (destruct l; [discriminate | discriminate]).
  destruct (initAwsGlobals_through_distribution env p s d dc l
              Hid Hfetch Hdc Hl Hne)
    as [o' [dom [b [cb [s' [E [Hfix [_ [_ [_ [_ [_ [Hr [Hb [Hcb _]]]]]]]]]]]]]]].
  exists s'. split; [exact E|]. rewrite Hr.
  assert (Ho : o' = o).
  { specialize (Hfix s). rewrite (setS3Origin_run dc l _ s Hl), Hp2 in Hfix.
    unfold default_origin in Hfix. rewrite Hdcb, Hfind in Hfix.
    destruct l; [discriminate|]. simpl in Hfix. congruence. }
  subst o'.
  assert (Hid_o : DefaultCacheBehavior.TargetOriginId dcb = Origin.Id o).
  { apply find_some in Hfind. destruct Hfind as [_ H]. apply seq_true in H.
    symmetry. exact H. }
  f_equal; [f_equal|].
  - destruct Hb as [sb [Hb [Ho _]]].
    unfold setBaseUrl in Hb. rewrite bind_get, bind_run, Hp1, Hdn in Hb.
    simpl in Hb. rewrite Ho in Hb. injection Hb as <-. reflexivity.
  - destruct Hcb as [sc [Hcb Hsc]].
    rewrite (setCacheBehaviorPathPattern_default dc dcb _ sc Hp3 Hdcb) in Hcb.
    + simpl in Hcb. rewrite Hid_o in Hcb. congruence.
    + unfold s3Origin_Id. rewrite Hsc. exact Hid_o.
Qed.

(** The distribution of Scenario with its default cache behavior on the
    bucket. *)
Lemma initAwsGlobals_default_resolution_witness :
  let d := Scenario.distribution (Some "d111.cloudfront.net")
             ["cdn.example.com"] "media" in
  let e := Scenario.env (Scenario.fetched d)
             (Resolves (Some tt)) (Resolves (Some tt)) (Resolves tt) in
  let s := Scenario.service (Some "E1") Scenario.no_prefs in
  exists s',
    initAwsGlobals e Scenario.no_prefs s = (Ok tt, s') /\
    resolved s' =
      (Some "https://d111.cloudfront.net",
       Some Scenario.media_origin,
       Some (CacheBehavior.mk (Some "*") (Some "media") (Some "allow-all"))).
Proof.
  intros d e s.
  exact (initAwsGlobals_default_resolution e Scenario.no_prefs s d _
           [Scenario.media_origin]
           (DefaultCacheBehavior.mk (Some "media") (Some "allow-all"))
           Scenario.media_origin
           eq_refl eq_refl eq_refl eq_refl eq_refl eq_refl eq_refl
           eq_refl eq_refl eq_refl).
Defined.

(** ** One fetch for every call *)

Lemma Holds_console_field (f : Service -> Service) :
  (forall s, trace (f s) = trace s) ->
  Holds (grows is_console) (modify f).
Proof. intros H s. exists []. split; [apply H | reflexivity]. Qed.

Ltac console_frame :=
  repeat first
    [ apply Holds_console_field; intros ?; reflexivity
    | apply Holds_bind; [exact (grows_trans is_console) | | intros ?]
    | apply Holds_try_catch; [exact (grows_trans is_console) | | intros ?]
    | progress frame (grows_refl is_console) (grows_trans is_console) ].

Lemma Holds_logs_console {A : Type} (c : M A) :
  Holds logs c -> Holds (grows is_console) c.
Proof. intros H s. destruct (H s) as [_ [_ [_ [_ G]]]]. exact G. Qed.

Lemma validateS3BucketName_console (o : option Origin.t) :
  Holds (grows is_console) (validateS3BucketName o).
Proof.
  unfold validateS3BucketName.
  repeat first
    [ apply Holds_console_field; intros ?; reflexivity
    | apply Holds_logs_console; apply Holds_logs_warn
    | progress console_frame ].
Qed.

Lemma setDefaults_trace (a b : option string) (s : Service) :
  trace (snd (setDefaults a b s)) = trace s.
Proof.
  unfold setDefaults, bind, get, modify, ret.
  destruct (Js.truthy b), (Js.truthy a); reflexivity.
Qed.

(** X8: every call of [initAwsGlobals] on a service with a distribution id
    sends exactly one request for the distribution, whatever configuration
    the service already holds: nothing is kept from one call to the next.
    Besides that request it only writes to the console.  Without a
    distribution id it records nothing at all. *)
Theorem initAwsGlobals_fetches_once :
  forall (env : Env) (p : Prefs) (s : Service),
    (Js.truthy (cloudFrontDistributionId_ (options s)) = false ->
     trace (snd (initAwsGlobals env p s)) = trace s) /\
    (Js.truthy (cloudFrontDistributionId_ (options s)) = true ->
     exists lines,
       trace (snd (initAwsGlobals env p s)) =
         (lines ++
          GetDistributionSent
            (Js.tmpl (cloudFrontDistributionId_ (options s)))
            (getDistribution env (trace s)
               (Js.tmpl (cloudFrontDistributionId_ (options s))))
          :: trace s)%list /\
       forallb is_console lines = true).
Proof.
  intros env p s. split; intros Hid.
  - unfold initAwsGlobals. rewrite bind_get, Hid. cbn [negb].
    apply setDefaults_trace.
  - unfold initAwsGlobals. rewrite bind_get, Hid. cbn [negb].
    unfold try_catch. rewrite bind_run.
    pose proof (getCloudFrontDistribution_state env
      (Js.tmpl (cloudFrontDistributionId_ (options s))) s) as Hs.
    destruct (getCloudFrontDistribution env _ s) as [[d|e] s1]; simpl in Hs.
    + match goal with
      | |- context [match ?k s1 with _ => _ end] =>
          assert (Hk : Holds (grows is_console) k)
      end.
      { repeat first
          [ apply Holds_console_field; intros ?; reflexivity
          | apply validateS3BucketName_console
          | apply Holds_logs_console; first
              [ apply setS3Origin_logs
              | apply setBaseUrl_logs
              | apply setCacheBehaviorPathPattern_logs ]
          | apply Holds_bind; [exact (grows_trans is_console) | | intros ?]
          | progress console_frame ]. }
      specialize (Hk s1). subst s1.
      match goal with
      | |- context [match ?c with _ => _ end] =>
          destruct c as [[[]|e] s2]
      end; simpl in Hk.
      * destruct Hk as [lines [T F]]. exists lines. split; [exact T | exact F].
      * destruct Hk as [lines [T F]]. exists lines.
        rewrite setDefaults_trace. split; [exact T | exact F].
    + exists []. rewrite setDefaults_trace, Hs. split; reflexivity.
Qed.

(** X9: without a distribution id, [initAwsGlobals] is idempotent: a second
    call, as every public method makes, leaves the service as the first
    call left it. *)
Theorem initAwsGlobals_idempotent_without_distribution :
  forall (env : Env) (p : Prefs) (s : Service),
    Js.truthy (cloudFrontDistributionId_ (options s)) = false ->
    initAwsGlobals env p (snd (initAwsGlobals env p s)) =
    initAwsGlobals env p s.
Proof.
  intros env p s Hid.
  assert (Hfirst : initAwsGlobals env p s =
                   setDefaults (s3OriginPath p) (domainName p) s).
  { unfold initAwsGlobals. rewrite bind_get, Hid. reflexivity. }
  rewrite Hfirst.
  assert (Ho : options (snd (setDefaults (s3OriginPath p) (domainName p) s))
               = options s).
  { unfold setDefaults, bind, get, modify, ret.
    destruct (Js.truthy (domainName p)), (Js.truthy (s3OriginPath p));
      reflexivity. }
  unfold initAwsGlobals at 1. rewrite bind_get, Ho, Hid. cbn [negb].
  unfold setDefaults, bind, get, modify, ret.
  destruct (Js.truthy (domainName p)), (Js.truthy (s3OriginPath p));
    reflexivity.
Qed.

(** Bucket [b] with the origin path preference [/assets]. *)
Lemma initAwsGlobals_idempotent_without_distribution_witness :
  let e := Scenario.env Scenario.fetch_fails
             (Resolves (Some tt)) (Resolves (Some tt)) (Resolves tt) in
  let p := {| domainName := None; s3OriginPath := Some "/assets";
              cacheBehaviorPathPattern := None |} in
  let s := Scenario.service None p in
  s3Origin_ (snd (initAwsGlobals e p s)) =
    Some (Origin.mk (Some "") (Some "b.s3.amazonaws.com") (Some "/assets")) /\
  initAwsGlobals e p (snd (initAwsGlobals e p s)) = initAwsGlobals e p s.
Proof.
  intros e p s. split; [reflexivity|].
  exact (initAwsGlobals_idempotent_without_distribution e p s eq_refl).
Defined.

(** ** The base URL [setBaseUrl] builds *)




(** ** What [upload] returns and records *)

(** X11: when the object store's put reports no result, [upload] throws
    [File upload failed]; when the put is rejected, [upload] throws what it
    was rejected with.  In both cases nothing follows the put: no URL is
    computed and no invalidation is requested. *)
Theorem upload_fails_with_the_put :
  forall (env : Env) (re : string -> option (string -> string))
         (enc : string -> option string) (file : option File.t)
         (s : Service),
    let s1 := snd (initAwsGlobals env (own_prefs s) s) in
    let params := getPutObjectCommandInput s1 file false in
    (putObject env (trace s1) params = Resolves None ->
     upload env re enc file s =
       (Throw (JsError "File upload failed"),
        with_event (PutObjectSent params (Resolves None)) s1)) /\
    (forall e,
        putObject env (trace s1) params = Rejects e ->
        upload env re enc file s =
          (Throw e, with_event (PutObjectSent params (Rejects e)) s1)).
Proof.
  intros env re enc file s. cbv zeta.
  destruct (upload_run env re enc file s) as [s1 [E [_ [_ Hu]]]].
  rewrite E, Hu, uploadFile_run. simpl snd.
  split.
  - intros H. rewrite H. reflexivity.
  - intros e H. rewrite H. reflexivity.
Qed.

(** X12: when [uploadFile] runs with a distribution id, the put reports a
    result, and the relative path of the key is computed and not empty,
    then exactly one invalidation is requested, for the distribution and
    for the single item [encodeURI(path)]; and the URL returned is the base
    URL followed by that same [path], whether the invalidation succeeds or
    not. *)
Theorem uploadFile_invalidates_the_path_it_returns :
  forall (env : Env) (re : string -> option (string -> string))
         (enc : string -> option string) (file : option File.t)
         (isProtected : bool) (s : Service) (path encoded : string),
    let params := getPutObjectCommandInput s file isProtected in
    let sent := with_event (PutObjectSent params (Resolves (Some tt))) s in
    Js.truthy (cloudFrontDistributionId_ (options s)) = true ->
    putObject env (trace s) params = Resolves (Some tt) ->
    getUrlFromKey re (PutObjectCommandInput.Key params) true s = Ok path ->
    path <> "" ->
    enc path = Some encoded ->
    exists answer lines s',
      uploadFile env re enc file isProtected s =
        (Ok (FileServiceUploadResult.mk (Js.tmpl (baseUrl_ s) ++ path)), s') /\
      trace s' =
        (lines ++
         CreateInvalidationSent
           (CreateInvalidation.mk
              (Js.tmpl (cloudFrontDistributionId_ (options s)))
              [encoded] (Date_now env (trace sent)))
           answer
         :: trace sent)%list /\
      forallb is_console lines = true.
Proof.
  intros env re enc file isProtected s path encoded params sent
    Hid Hput Hpath Hne Henc.
  rewrite uploadFile_run. fold params. rewrite Hput. fold sent.
  rewrite (getUrlFromKey_resolved re _ true s sent eq_refl), Hpath.
  rewrite invalidateFile_run. simpl snd.
  change (options sent) with (options s). rewrite Hid, Henc.
  destruct path as [|c path]; [congruence|]. cbn [negb Js.nonempty orb].
  cbv zeta. unfold invalidation_of.
  change (options sent) with (options s).
  change (trace sent)
    with (PutObjectSent params (Resolves (Some tt)) :: trace s).
  set (tr := PutObjectSent params (Resolves (Some tt)) :: trace s).
  set (input := CreateInvalidation.mk
                  (Js.tmpl (cloudFrontDistributionId_ (options s)))
                  [encoded] (Date_now env tr)).
  exists (createInvalidation env tr input).
  destruct (createInvalidation env tr input) as [[]|e].
  - exists []. eexists. split; [reflexivity|]. split; reflexivity.
  - exists [invalidation_failed (String c path)]. eexists.
    split; [reflexivity|]. split; reflexivity.
Qed.

(** The distribution of Scenario; the invalidation is rejected. *)
Lemma uploadFile_invalidates_the_path_it_returns_witness :
  let e := Scenario.env
             (Scenario.fetched
                (Scenario.distribution (Some "d111.cloudfront.net")
                   ["cdn.example.com"] "media"))
             (Resolves (Some tt)) (Resolves (Some tt))
             (Rejects (ServiceException "AccessDenied")) in
  let s := snd (initAwsGlobals e Scenario.no_prefs
                  (Scenario.service (Some "E1") Scenario.no_prefs)) in
  let file := Some (File.mk (Some "a.png") None) in
  getUrlFromKey Scenario.anchored_literal_RegExp "assets/a.png" true s
    = Ok "/a.png" /\
  exists answer lines s',
    uploadFile e Scenario.anchored_literal_RegExp
      Scenario.encodeURI_unreserved file false s =
      (Ok (FileServiceUploadResult.mk "https://d111.cloudfront.net/a.png"), s') /\
    trace s' =
      (lines ++
       CreateInvalidationSent (CreateInvalidation.mk "E1" ["/a.png"] 0) answer
       :: PutObjectSent (getPutObjectCommandInput s file false)
            (Resolves (Some tt))
       :: trace s)%list /\
    forallb is_console lines = true.
Proof.
  intros e s file. split; [reflexivity|].
  exact (uploadFile_invalidates_the_path_it_returns e
           Scenario.anchored_literal_RegExp Scenario.encodeURI_unreserved
           file false s "/a.png" "/a.png"
           eq_refl eq_refl eq_refl ltac:(discriminate) eq_refl).
Defined.

(** ** From the options to the URL, without a distribution *)

(** The key prefix and the host the options ask for when no distribution
    is configured. *)
Definition configured_prefix (o : PluginOptions.t) : string :=
  match PluginOptions.s3_origin_path o with
  | Some p => if Js.nonempty p then Js.strip_leading_slash p ++ "/" else ""
  | None => ""
  end.

Definition configured_host (o : PluginOptions.t) : string :=
  if Js.truthy (PluginOptions.domain_name o)
  then Js.tmpl (PluginOptions.domain_name o)
  else Js.tmpl (PluginOptions.s3_bucket o) ++ ".s3.amazonaws.com".

(** X13: for a service constructed without a distribution id, [upload] of
    a file named [name], when the put reports a result, stores it under
    the configured origin path (leading slash stripped) followed by
    [name], in the configured bucket, and returns
    [scheme://host/key], where [scheme] is [https] or [http] as [use_https]
    says and [host] is the configured domain name, or else
    [<bucket>.s3.amazonaws.com].  Nothing but the put is recorded: no fetch
    of a distribution and no invalidation. *)
Theorem upload_without_distribution :
  forall (env : Env) (re : string -> option (string -> string))
         (enc : string -> option string) (o : PluginOptions.t)
         (name : string) (path : option string),
    let s := new_AwsStorageService o in
    let file := Some (File.mk (Some name) path) in
    let s1 := snd (initAwsGlobals env (own_prefs s) s) in
    let params := getPutObjectCommandInput s1 file false in
    Js.truthy (PluginOptions.cloud_front_distribution_id o) = false ->
    putObject env (trace s1) params = Resolves (Some tt) ->
    PutObjectCommandInput.Bucket params = PluginOptions.s3_bucket o /\
    PutObjectCommandInput.Key params = configured_prefix o ++ name /\
    upload env re enc file s =
      (Ok (FileServiceUploadResult.mk
             ((if PluginOptions.use_https o then "https" else "http") ++
              "://" ++ configured_host o ++ "/" ++
              configured_prefix o ++ name)),
       with_event (PutObjectSent params (Resolves (Some tt))) s1) /\
    trace s1 = trace s.
Proof.
  intros env re enc o name path s file s1 params Hid Hput.
  destruct (upload_run env re enc file s) as [s1' [E [Ho [_ Hu]]]].
  assert (Hs1 : s1 = s1') by (unfold s1; rewrite E; reflexivity).
  clearbody s1. subst s1'.
  assert (Hinit : initAwsGlobals env (own_prefs s) s =
                  setDefaults (PluginOptions.s3_origin_path o)
                    (PluginOptions.domain_name o) s).
  { unfold initAwsGlobals. rewrite bind_get.
    change (cloudFrontDistributionId_ (options s))
      with (PluginOptions.cloud_front_distribution_id o).
    rewrite Hid. reflexivity. }
  rewrite Hinit in E.
  destruct (setDefaults_run (PluginOptions.s3_origin_path o)
              (PluginOptions.domain_name o) s)
    as [s1' [E' [Hb [Hu' [Hor Hc]]]]].
  rewrite E in E'. injection E' as <-.
  pose proof (setDefaults_trace (PluginOptions.s3_origin_path o)
                (PluginOptions.domain_name o) s) as Ht.
  rewrite E in Ht. simpl snd in Ht.
  assert (Hkey : PutObjectCommandInput.Key params = configured_prefix o ++ name).
  { unfold params, getPutObjectCommandInput, getKeyFromFile, s3Origin_OriginPath,
      configured_prefix.
    cbn [PutObjectCommandInput.Key File.originalname Js.tmpl]. rewrite Hor.
    destruct (PluginOptions.s3_origin_path o) as [[|c p]|]; reflexivity. }
  split; [exact Hb|]. split; [exact Hkey|]. split; [|exact Ht].
  rewrite Hu, uploadFile_run. fold params. rewrite Hput.
  set (sent := with_event (PutObjectSent params (Resolves (Some tt))) s1).
  assert (Hurl : getUrlFromKey re (PutObjectCommandInput.Key params) true sent
                 = Ok ("/" ++ configured_prefix o ++ name)).
  { unfold getUrlFromKey. change (cacheBehavior_ sent) with (cacheBehavior_ s1).
    rewrite Hc, Hkey. reflexivity. }
  rewrite Hurl, invalidateFile_run. simpl snd.
  change (options sent) with (options s1). rewrite Ho.
  change (cloudFrontDistributionId_ (options s))
    with (PluginOptions.cloud_front_distribution_id o).
  rewrite Hid. cbn [negb orb]. rewrite Hu'.
  f_equal. f_equal. cbn [Js.tmpl].
  change (protocol_ (options s))
    with (if PluginOptions.use_https o then "https" else "http").
  change (bucketName_ s) with (PluginOptions.s3_bucket o).
  unfold configured_host, s3_suffix.
  rewrite !string_app_assoc. reflexivity.
Qed.

(** Bucket [b] over https, no distribution, no preference: [photo.png] is
    served as [https://b.s3.amazonaws.com/photo.png]. *)
Lemma upload_without_distribution_witness :
  let o := PluginOptions.mk (Some "AKIA") (Some "secret") (Some "us-east-1")
             (Some "b") None None None None None None None None true in
  let e := Scenario.env Scenario.fetch_fails
             (Resolves (Some tt)) (Resolves (Some tt)) (Resolves tt) in
  let s := new_AwsStorageService o in
  let file := Some (File.mk (Some "photo.png") None) in
  let s1 := snd (initAwsGlobals e (own_prefs s) s) in
  let params := getPutObjectCommandInput s1 file false in
  PutObjectCommandInput.Bucket params = Some "b" /\
  PutObjectCommandInput.Key params = "photo.png" /\
  upload e Scenario.anchored_literal_RegExp Scenario.encodeURI_unreserved
    file s =
    (Ok (FileServiceUploadResult.mk "https://b.s3.amazonaws.com/photo.png"),
     with_event (PutObjectSent params (Resolves (Some tt))) s1) /\
  trace s1 = [].
Proof.
  intros o e s file s1 params.
  exact (upload_without_distribution e Scenario.anchored_literal_RegExp
           Scenario.encodeURI_unreserved o "photo.png" None eq_refl eq_refl).
Defined.

(** ** The stream methods *)

(** X14: [getUploadStreamDescriptor] sends one put, for the key of
    [name.ext] with a pass-through body, and does not wait for it: whatever
    the put settles to, a rejection included, the method returns normally
    as soon as the URL of the key is computed, handing the put's promise to
    the caller.  Unlike [upload] it never requests an invalidation, with or
    without a distribution. *)
Theorem getUploadStreamDescriptor_hands_over_the_put :
  forall (env : Env) (re : string -> option (string -> string))
         (fileData : UploadStreamDescriptorType.t) (s : Service),
    let s1 := snd (initAwsGlobals env (own_prefs s) s) in
    let fileName :=
      Js.tmpl (UploadStreamDescriptorType.name fileData) ++ "." ++
      Js.tmpl (UploadStreamDescriptorType.ext fileData) in
    let params :=
      getPutObjectCommandInput s1 (Some (File.mk (Some fileName) None)) false in
    let promise := putObject env (trace s1) params in
    let run := getUploadStreamDescriptor env re fileData s in
    PutObjectCommandInput.Key params = key_prefix s1 ++ fileName /\
    PutObjectCommandInput.Body_ params = PassThrough /\
    trace (snd run) = PutObjectSent params promise :: trace s1 /\
    grows (fun e => negb (is_invalidation e)) s (snd run) /\
    (forall url,
        getUrlFromKey re (PutObjectCommandInput.Key params) false s1 = Ok url ->
        fst run =
          Ok (FileServiceGetUploadStreamResult.mk PassThrough promise url
                (PutObjectCommandInput.Key params))).
Proof.
  intros env re fileData s. cbv zeta.
  destruct (initAwsGlobals_run env (own_prefs s) s) as [s1 [E [Ho Hg]]].
  rewrite E. change (snd (Ok tt, s1)) with s1.
  set (fileName := Js.tmpl (UploadStreamDescriptorType.name fileData) ++ "." ++
                   Js.tmpl (UploadStreamDescriptorType.ext fileData)).
  set (params := getPutObjectCommandInput s1
                   (Some (File.mk (Some fileName) None)) false).
  set (promise := putObject env (trace s1) params).
  set (sent := with_event (PutObjectSent params promise) s1).
  assert (Hrun : getUploadStreamDescriptor env re fileData s =
    match getUrlFromKey re (PutObjectCommandInput.Key params) false s1 with
    | Ok url =>
        (Ok (FileServiceGetUploadStreamResult.mk PassThrough promise url
               (PutObjectCommandInput.Key params)), sent)
    | Throw e => (Throw e, sent)
    end).
  { unfold getUploadStreamDescriptor.
    rewrite bind_get, bind_run, E, bind_get. cbv zeta.
    fold fileName. fold params. fold promise.
    unfold emit. rewrite bind_modify. fold sent.
    unfold lift. rewrite bind_run.
    rewrite (getUrlFromKey_resolved re _ false s1 sent eq_refl).
    destruct (getUrlFromKey re _ false s1); reflexivity. }
  rewrite Hrun.
  split; [apply getKeyFromFile_prefix|]. split; [reflexivity|].
  split; [destruct (getUrlFromKey re _ false s1); reflexivity|].
  split.
  - apply grows_trans with s1.
    + eapply grows_weaken; [|exact Hg].
      intros [] H; try discriminate H; reflexivity.
    + replace (snd match getUrlFromKey re (PutObjectCommandInput.Key params)
                           false s1 with
                   | Ok url =>
                       (Ok (FileServiceGetUploadStreamResult.mk PassThrough
                              promise url (PutObjectCommandInput.Key params)),
                        sent)
                   | Throw e => (Throw e, sent)
                   end) with sent
        by (destruct (getUrlFromKey re _ false s1); reflexivity).
      apply grows_event. reflexivity.
  - intros url Hurl. rewrite Hurl. reflexivity.
Qed.

(** X15: the key [getPresignedDownloadUrl] derives from a key that
    [getKeyFromFile] built for a file name (as [upload] and
    [getUploadStreamDescriptor] do) is that key again exactly when the file
    name contains no slash; a file stored under a name with a slash is
    signed under another key. *)
Theorem presigned_key_of_stored_key :
  forall (s : Service) (name : string) (path : option string),
    let stored := getKeyFromFile s (Some (File.mk (Some name) path)) in
    let signed :=
      getKeyFromFile s
        (Some (File.mk (Js.at_last (Js.split "/" stored)) None)) in
    signed = stored <-> Js.has_char "/" name = false.
Proof.
  intros s name path. cbv zeta.
  rewrite (getKeyFromFile_prefix s name path).
  destruct (last_segment (key_prefix s ++ name)) as [segment [Hseg Hno]].
  rewrite Hseg, (getKeyFromFile_prefix s segment None).
  split.
  - intros H. apply string_app_inv_head in H. subst segment. exact Hno.
  - intros H. rewrite (last_segment_with_prefix s name H) in Hseg.
    injection Hseg as <-. reflexivity.
Qed.

(** X16: [getDownloadStream] asks the object store for the file key as it
    is given, in the resolved bucket; it throws [File not found] when the
    store answers with no result or with a result without a body, returns
    the bytes of the body when reading it yields them, throws on what the
    store rejects with, and changes nothing beyond configuration
    resolution. *)
Theorem getDownloadStream_not_found :
  forall (env : Env)
         (getObject : list Event -> option string -> string ->
                      Outcome (option GetObjectCommandOutput.t))
         (fileData : GetUploadedFileType.t) (s : Service),
    let s1 := snd (initAwsGlobals env (own_prefs s) s) in
    let answer :=
      getObject (trace s1) (bucketName_ s1)
        (GetUploadedFileType.fileKey fileData) in
    let run := getDownloadStream env getObject fileData s in
    snd run = s1 /\
    (answer = Resolves None ->
     fst run = Throw (JsError "File not found")) /\
    (answer = Resolves (Some (GetObjectCommandOutput.mk None)) ->
     fst run = Throw (JsError "File not found")) /\
    (forall bytes,
        answer = Resolves (Some (GetObjectCommandOutput.mk (Some (Resolves bytes)))) ->
        fst run = Ok bytes) /\
    (forall e, answer = Rejects e -> fst run = Throw e).
Proof.
  intros env getObject fileData s. cbv zeta.
  destruct (initAwsGlobals_run env (own_prefs s) s) as [s1 [E _]].
  rewrite E. change (snd (Ok tt, s1)) with s1.
  unfold getDownloadStream. rewrite bind_get, bind_run, E, bind_get, bind_run.
  destruct (getObject (trace s1) (bucketName_ s1) _) as [[[[[bytes|e]|]]|]|e];
    simpl; repeat split; intros; try discriminate; try congruence.
Qed.

(** ** The codec of s3.ts beyond [/assets] *)

(** X17: with a resolved cache behavior whose pattern is [*] and a
    resolved origin path [/q] where [q] has no syntax character of a
    regular expression, the key [getKeyFromFile] builds for a file name is
    [q/name], its absolute URL is the base URL followed by [/name], and
    [getKeyFromUrl] turns that URL back into the key. *)
Theorem key_url_round_trip_under_origin_path :
  forall (new_RegExp : string -> option (string -> string))
         (s : Service) (cb : CacheBehavior.t) (q name : string)
         (path : option string),
    RegExp_literal_prefix new_RegExp ->
    cacheBehavior_ s = Some cb ->
    CacheBehavior.PathPattern cb = Some "*" ->
    s3Origin_OriginPath s = Some ("/" ++ q) ->
    Js.literal q = true ->
    let key := getKeyFromFile s (Some (File.mk (Some name) path)) in
    key = q ++ "/" ++ name /\
    getUrlFromKey new_RegExp key false s
      = Ok (Js.tmpl (baseUrl_ s) ++ "/" ++ name) /\
    getKeyFromUrl (Js.tmpl (baseUrl_ s) ++ "/" ++ name) s = key.
Proof.
  intros new_RegExp s cb q name path Hre Hcb Hpat Hpath Hlit. cbv zeta.
  assert (Hkey : getKeyFromFile s (Some (File.mk (Some name) path))
                 = q ++ "/" ++ name).
  { unfold getKeyFromFile. rewrite Hpath.
    cbn [String.append Js.nonempty Js.strip_leading_slash File.originalname
         Js.tmpl].
    apply string_app_assoc. }
  rewrite Hkey. split; [reflexivity|].
  destruct (Hre ("/" ++ q)) as [searchValue [Hnew Hreplace]].
  { cbn [String.append Js.literal]. exact Hlit. }
  split.
  - unfold getUrlFromKey. rewrite Hcb, Hpath, Hpat.
    cbn [String.append Js.nonempty Js.seq] in *.
    rewrite Hnew, String.eqb_refl, Hreplace.
    change (String "/" (q ++ String "/" name))
      with (String "/" q ++ String "/" name).
    rewrite strip_prefix_app. reflexivity.
  - unfold getKeyFromUrl. rewrite Hcb, Hpath, Hpat, replace_first_prefix.
    reflexivity.
Qed.

(** The resolved configuration of Scenario, whose origin path is
    [/assets]. *)
Lemma key_url_round_trip_under_origin_path_witness :
  let e := Scenario.env
             (Scenario.fetched
                (Scenario.distribution (Some "d111.cloudfront.net")
                   ["cdn.example.com"] "media"))
             (Resolves (Some tt)) (Resolves (Some tt)) (Resolves tt) in
  let s := snd (initAwsGlobals e Scenario.no_prefs
                  (Scenario.service (Some "E1") Scenario.no_prefs)) in
  let key := getKeyFromFile s (Some (File.mk (Some "x/a.png") None)) in
  key = "assets/x/a.png" /\
  getUrlFromKey Scenario.anchored_literal_RegExp key false s
    = Ok "https://d111.cloudfront.net/x/a.png" /\
  getKeyFromUrl "https://d111.cloudfront.net/x/a.png" s = key.
Proof.
  intros e s key.
  exact (key_url_round_trip_under_origin_path Scenario.anchored_literal_RegExp
           s (CacheBehavior.mk (Some "*") (Some "media") (Some "allow-all"))
           "assets" "x/a.png" None
           anchored_literal_RegExp_literal_prefix
           eq_refl eq_refl eq_refl eq_refl).
Defined.

(** X18: when no cache behavior is resolved, and when the resolved cache
    behavior has a pattern other than [*], the URL of a key is not
    rewritten: when [getUrlFromKey] returns, the absolute URL is the base
    URL followed by [/] and the whole key, origin path included, and
    [getKeyFromUrl] turns it back into the key, for every key.  Without a
    cache behavior [getUrlFromKey] always returns. *)
Theorem url_not_rewritten_without_wildcard :
  forall (new_RegExp : string -> option (string -> string))
         (s : Service) (key : string),
    (cacheBehavior_ s = None ->
     getUrlFromKey new_RegExp key false s
       = Ok (Js.tmpl (baseUrl_ s) ++ "/" ++ key)) /\
    (forall url,
        match cacheBehavior_ s with
        | Some cb => CacheBehavior.PathPattern cb <> Some "*"
        | None => True
        end ->
        getUrlFromKey new_RegExp key false s = Ok url ->
        url = Js.tmpl (baseUrl_ s) ++ "/" ++ key /\
        getKeyFromUrl url s = key).
Proof.
  intros new_RegExp s key. split.
  - intros Hc. unfold getUrlFromKey. rewrite Hc. reflexivity.
  - intros url Hpat Hurl.
    assert (Hseq : forall cb, cacheBehavior_ s = Some cb ->
                   Js.seq (CacheBehavior.PathPattern cb) (Some "*") = false).
    { intros cb Hcb. rewrite Hcb in Hpat.
      destruct (Js.seq (CacheBehavior.PathPattern cb) (Some "*")) eqn:E;
        [|reflexivity].
      apply seq_true in E. contradiction. }
    assert (Hu : url = Js.tmpl (baseUrl_ s) ++ "/" ++ key).
    { unfold getUrlFromKey in Hurl.
      destruct (cacheBehavior_ s) as [cb|] eqn:Hcb.
      - rewrite (Hseq cb eq_refl) in Hurl.
        destruct (Js.nonempty _) in Hurl.
        + destruct (new_RegExp _) in Hurl; [|discriminate].
          injection Hurl as <-. reflexivity.
        + injection Hurl as <-. reflexivity.
      - injection Hurl as <-. reflexivity. }
    split; [exact Hu|]. subst url.
    unfold getKeyFromUrl. rewrite replace_first_prefix.
    destruct (cacheBehavior_ s) as [cb|] eqn:Hcb.
    + rewrite (Hseq cb eq_refl). reflexivity.
    + reflexivity.
Qed.

(** ** Signing without a duration *)

(** X19: with a distribution id configured and no [download_url_duration],
    [getPresignedDownloadUrl] throws: once the URL of the key is computed,
    the expiry date is invalid and [toISOString] throws a [RangeError].
    No signer is asked. *)
Theorem getPresignedDownloadUrl_needs_a_duration :
  forall (env : Env) (re : string -> option (string -> string))
         (iso : Z -> option string) (fileData : GetUploadedFileType.t)
         (s : Service),
    Js.truthy (cloudFrontDistributionId_ (options s)) = true ->
    downloadUrlDuration_ (options s) = None ->
    let s1 := snd (initAwsGlobals env (own_prefs s) s) in
    let run := getPresignedDownloadUrl env re iso fileData s in
    snd run = s1 /\
    exists e,
      fst run = Throw e /\
      ((exists url,
          getUrlFromKey re
            (getKeyFromFile s1
               (Some (File.mk
                        (Js.at_last
                           (Js.split "/" (GetUploadedFileType.fileKey fileData)))
                        None)))
            false s1 = Ok url) ->
       e = RangeError).
Proof.
  intros env re iso fileData s Hid Hd. cbv zeta.
  destruct (initAwsGlobals_run env (own_prefs s) s) as [s1 [E [Ho _]]].
  rewrite E. change (snd (Ok tt, s1)) with s1.
  unfold getPresignedDownloadUrl.
  rewrite bind_get, bind_run, E, bind_get, Ho, Hid. cbn [negb]. cbv zeta.
  rewrite bind_run. unfold lift.
  change (PutObjectCommandInput.Key
            (getPutObjectCommandInput s1
               (Some (File.mk
                        (Js.at_last
                           (Js.split "/" (GetUploadedFileType.fileKey fileData)))
                        None)) false))
    with (getKeyFromFile s1
            (Some (File.mk
                     (Js.at_last
                        (Js.split "/" (GetUploadedFileType.fileKey fileData)))
                     None))).
  destruct (getUrlFromKey re _ false s1) as [url|e].
  - rewrite bind_run, Hd. split; [reflexivity|].
    exists RangeError. split; [reflexivity | intros _; reflexivity].
  - split; [reflexivity|]. exists e. split; [reflexivity|].
    intros [url Hurl]. discriminate Hurl.
Qed.

(** A service constructed for the distribution [E1] without
    [download_url_duration]. *)
Lemma getPresignedDownloadUrl_needs_a_duration_witness :
  let o := PluginOptions.mk (Some "AKIA") (Some "secret") (Some "us-east-1")
             (Some "b") None None (Some "E1") None None None
             (Some "K1") (Some "pem") true in
  let e := Scenario.env
             (Scenario.fetched
                (Scenario.distribution (Some "d111.cloudfront.net")
                   ["cdn.example.com"] "media"))
             (Resolves (Some tt)) (Resolves (Some tt)) (Resolves tt) in
  let s := new_AwsStorageService o in
  let run := getPresignedDownloadUrl e Scenario.anchored_literal_RegExp
               Scenario.toISOString_epoch
               (GetUploadedFileType.mk "assets/a.png") s in
  fst run = Throw RangeError /\
  snd run = snd (initAwsGlobals e (own_prefs s) s) /\
  exists ex,
    fst run = Throw ex /\
    ((exists url,
        getUrlFromKey Scenario.anchored_literal_RegExp
          (getKeyFromFile (snd (initAwsGlobals e (own_prefs s) s))
             (Some (File.mk (Js.at_last (Js.split "/" "assets/a.png")) None)))
          false (snd (initAwsGlobals e (own_prefs s) s)) = Ok url) ->
     ex = RangeError).
Proof.
  intros o e s run. split; [reflexivity|].
  exact (getPresignedDownloadUrl_needs_a_duration e
           Scenario.anchored_literal_RegExp Scenario.toISOString_epoch
           (GetUploadedFileType.mk "assets/a.png") s eq_refl eq_refl).
Defined.

(** ** Deleting *)

(** X20: [delete] sends one delete to the object store, for the file key
    as given (no origin path is put before it) in the bucket the
    initialisation resolved; it returns exactly when the store answers
    with a result, and an error of the store is thrown on to the caller. *)
Theorem delete_sends_the_given_key :
  forall (env : Env) (file : DeleteFileType.t) (s : Service),
    let s1 := snd (initAwsGlobals env (own_prefs s) s) in
    let fileKey := DeleteFileType.fileKey file in
    let answer := deleteObject env (trace s1) (bucketName_ s1) fileKey in
    let run := delete env file s in
    trace (snd run)
      = DeleteObjectSent (bucketName_ s1) fileKey answer :: trace s1 /\
    (fst run = Ok tt <-> exists r, answer = Resolves (Some r)) /\
    (forall e, answer = Rejects e -> fst run = Throw e).
Proof.
  intros env file s. cbv zeta.
  destruct (initAwsGlobals_run env (own_prefs s) s) as [s1 [E _]].
  assert (Hd : delete env file s =
               removeFile env (DeleteFileType.fileKey file) s1).
  { unfold delete. rewrite bind_get, bind_run, E. reflexivity. }
  rewrite Hd, E. change (snd (Ok tt, s1)) with s1.
  unfold removeFile. rewrite bind_get, bind_run. unfold send.
  destruct (deleteObject env (trace s1) (bucketName_ s1)
              (DeleteFileType.fileKey file)) as [[[]|]|e]; simpl.
  - split; [reflexivity|]. split.
    + split; [intros _; exists tt; reflexivity | reflexivity].
    + intros e H. discriminate H.
  - split; [reflexivity|]. split.
    + split; [intros H; discriminate H | intros [r H]; discriminate H].
    + intros e H. discriminate H.
  - split; [reflexivity|]. split.
    + split; [intros H; discriminate H | intros [r H]; discriminate H].
    + intros e0 H. injection H as ->. reflexivity.
Qed.
